(** * descartes: the Snow incremental reader and the collect service

    A shallow embedding of [sources/snow/snow_data_reader.go] and
    [services/collect_service.go], with the properties of the checkpoint
    cursor, the de-duplication step, the poll guard, the heartbeat reporter
    and the task dispatcher stated over it. *)

From Stdlib Require Import ZArith String Ascii List Bool Floats Lia.
From stdpp Require Import base option gmap strings list fin_maps.

Set Warnings "-register-all".

Local Open Scope string_scope.
Local Open Scope list_scope.
Local Open Scope Z_scope.

(** ** Go runtime vocabulary shared by both files *)

(** A call either returns or panics (a failed unchecked type assertion, a
    comparison of uncomparable dynamic types, an explicit [panic]). *)
Inductive outcome (A : Type) : Type :=
  | Done (a : A)
  | Panic (why : string).
Arguments Done {A} a.
Arguments Panic {A} why.

#[global] Instance outcome_ret : MRet outcome := @Done.
#[global] Instance outcome_bind : MBind outcome := fun A B f m =>
  match m with
  | Done a => f a
  | Panic w => Panic w
  end.

(** Reading a [map[string]string] yields the zero value for a missing key. *)
Definition get (m : gmap string string) (k : string) : string :=
  default "" (m !! k).

(** ** The pieces of Go's standard library the reader calls *)

Module strconv.

Definition isDigit (c : ascii) : bool :=
  (48 <=? nat_of_ascii c)%nat && (nat_of_ascii c <=? 57)%nat.

Definition digitVal (c : ascii) : Z := Z.of_nat (nat_of_ascii c) - 48.

(** The decimal value of a run of digits, [None] at the first other byte. *)
Fixpoint digits (acc : Z) (s : string) : option Z :=
  match s with
  | EmptyString => Some acc
  | String c rest =>
      if isDigit c then digits (acc * 10 + digitVal c) rest else None
  end.

Definition maxInt : Z := 9223372036854775807.
Definition minInt : Z := -9223372036854775808.

(** [strconv.Atoi] on a 64-bit platform: the value and whether the error is
    nil.  A syntax error gives 0, a range error the nearest bound. *)
Definition Atoi (s : string) : Z * bool :=
  let '(neg, body) :=
    match s with
    | String "-" rest => (true, rest)
    | String "+" rest => (false, rest)
    | _ => (false, s)
    end in
  match body with
  | EmptyString => (0, false)
  | _ =>
      match digits 0 body with
      | None => (0, false)
      | Some n =>
          let v := if neg then - n else n in
          if maxInt <? v then (maxInt, false)
          else if v <? minInt then (minInt, false)
          else (v, true)
      end
  end.

Definition digitChar (d : Z) : ascii := ascii_of_nat (Z.to_nat (d + 48)).

(** Decimal digits of a non-negative number, most significant first. *)
Fixpoint decimal (fuel : nat) (x : Z) (acc : string) : string :=
  match fuel with
  | O => acc
  | S fuel' =>
      let acc' := String (digitChar (x mod 10)) acc in
      if x <? 10 then acc' else decimal fuel' (x / 10) acc'
  end.

Fixpoint allDigits (s : string) : bool :=
  match s with
  | EmptyString => true
  | String c rest => isDigit c && allDigits rest
  end.

(** Following the spec's words: a numeric text is an optional sign and
    then one or more decimal digits; anything else is non-numeric. *)
Definition isNumeric (s : string) : bool :=
  let body :=
    match s with
    | String "-" rest => rest
    | String "+" rest => rest
    | _ => s
    end in
  negb (String.eqb body "") && allDigits body.

(** The decimal text of an integer, as [%d] and [strconv.Itoa] print it. *)
Definition Itoa (x : Z) : string :=
  let u := Z.abs x in
  (if x <? 0 then "-" else "") +:+ decimal (S (Z.to_nat (Z.log2 u))) u EmptyString.

End strconv.

Module gostrings.

(** [strings.Replace(s, old, new, 1)] for a one-byte [old]: the first
    occurrence is replaced, the rest of the string is kept. *)
Fixpoint ReplaceFirst (s : string) (old : ascii) (new : string) : string :=
  match s with
  | EmptyString => EmptyString
  | String c rest =>
      if Ascii.eqb c old then new +:+ rest
      else String c (ReplaceFirst rest old new)
  end.

End gostrings.

Module time.

Import strconv.

(** A [time.Time] in UTC, kept as its civil fields. *)
Record Time : Type := mkTime {
  year : Z; month : Z; day : Z;
  hour : Z; minute : Z; second : Z;
  nsec : Z
}.

Definition isLeap (y : Z) : bool :=
  (y mod 4 =? 0) && (negb (y mod 100 =? 0) || (y mod 400 =? 0)).

Definition daysIn (m y : Z) : Z :=
  if m =? 2 then (if isLeap y then 29 else 28)
  else if (m =? 4) || (m =? 6) || (m =? 9) || (m =? 11) then 30
  else 31.

(** [getnum]: one or two digits, exactly two when [fixed]. *)
Definition getnum (s : string) (fixed : bool) : option (Z * string) :=
  match s with
  | String c0 rest =>
      if isDigit c0 then
        match rest with
        | String c1 rest' =>
            if isDigit c1 then Some (digitVal c0 * 10 + digitVal c1, rest')
            else if fixed then None else Some (digitVal c0, rest)
        | EmptyString => if fixed then None else Some (digitVal c0, rest)
        end
      else None
  | EmptyString => None
  end.

(** The four-digit year of the [2006] verb. *)
Definition longYear (s : string) : option (Z * string) :=
  match s with
  | String a (String b (String c (String d rest))) =>
      y ← digits 0 (String a (String b (String c (String d EmptyString))));
      Some (y, rest)
  | _ => None
  end.

Fixpoint cutspace (s : string) : string :=
  match s with
  | String " " rest => cutspace rest
  | _ => s
  end.

(** [skip] for a one-byte literal of the layout. *)
Definition skipByte (c : ascii) (s : string) : option string :=
  match s with
  | String c' rest => if Ascii.eqb c' c then Some rest else None
  | EmptyString => None
  end.

(** [skip] for the blank of the layout: a run of blanks, or the end of the
    value, stands for it. *)
Definition skipSpace (s : string) : option string :=
  match s with
  | String c _ => if Ascii.eqb c " " then Some (cutspace s) else None
  | EmptyString => Some EmptyString
  end.

Fixpoint spanDigits (s : string) : string * string :=
  match s with
  | String c rest =>
      if isDigit c then
        let '(ds, tl) := spanDigits rest in (String c ds, tl)
      else (EmptyString, s)
  | EmptyString => (EmptyString, EmptyString)
  end.

Definition commaOrPeriod (c : ascii) : bool :=
  Ascii.eqb c "." || Ascii.eqb c ",".

(** [parseNanoseconds]: at most nine digits count, scaled to nanoseconds. *)
Definition parseNanoseconds (ds : string) : Z :=
  let kept := substring 0 9 ds in
  default 0 (digits 0 kept) * 10 ^ (9 - Z.of_nat (String.length kept)).

(** A fractional second in the value although the layout has none. *)
Definition fraction (s : string) : Z * string :=
  match s with
  | String c (String d rest) =>
      if commaOrPeriod c && isDigit d then
        let '(ds, tl) := spanDigits (String d rest) in
        (parseNanoseconds ds, tl)
      else (0, s)
  | _ => (0, s)
  end.

(** [time.Parse("2006-01-02 15:04:05", value)]; [None] is a parse error. *)
Definition Parse (value : string) : option Time :=
  '(y, v) ← longYear value;
  v ← skipByte "-" v;
  '(mo, v) ← getnum v true;
  _ ← guard (1 <= mo <= 12);
  v ← skipByte "-" v;
  '(d, v) ← getnum v true;
  v ← skipSpace v;
  '(h, v) ← getnum v false;
  _ ← guard (h < 24);
  v ← skipByte ":" v;
  '(mi, v) ← getnum v true;
  _ ← guard (mi < 60);
  v ← skipByte ":" v;
  '(s, v) ← getnum v true;
  _ ← guard (s < 60);
  let '(ns, v) := fraction v in
  _ ← guard (v = EmptyString);
  _ ← guard (1 <= d <= daysIn mo y);
  Some (mkTime y mo d h mi s ns).

(** [t.Add(time.Second)] on the civil fields. *)
Definition AddSecond (t : Time) : Time :=
  if second t <? 59 then mkTime (year t) (month t) (day t) (hour t) (minute t) (second t + 1) (nsec t)
  else if minute t <? 59 then mkTime (year t) (month t) (day t) (hour t) (minute t + 1) 0 (nsec t)
  else if hour t <? 23 then mkTime (year t) (month t) (day t) (hour t + 1) 0 0 (nsec t)
  else if day t <? daysIn (month t) (year t) then mkTime (year t) (month t) (day t + 1) 0 0 0 (nsec t)
  else if month t <? 12 then mkTime (year t) (month t + 1) 1 0 0 0 (nsec t)
  else mkTime (year t + 1) 1 1 0 0 0 (nsec t).

Fixpoint zeros (n : nat) : string :=
  match n with
  | O => EmptyString
  | S n' => String "0" (zeros n')
  end.

(** [appendInt]: sign, then the digits padded with zeros to [width]. *)
Definition appendInt (x : Z) (width : nat) : string :=
  let u := Z.abs x in
  let ds := decimal (S (Z.to_nat (Z.log2 u))) u EmptyString in
  (if x <? 0 then "-" else "") +:+ zeros (width - String.length ds) +:+ ds.

(** [t.Format("2006-01-02 15:04:05")]. *)
Definition Format (t : Time) : string :=
  appendInt (year t) 4 +:+ "-" +:+ appendInt (month t) 2 +:+ "-" +:+ appendInt (day t) 2
    +:+ " " +:+ appendInt (hour t) 2 +:+ ":" +:+ appendInt (minute t) 2
    +:+ ":" +:+ appendInt (second t) 2.

(** Days from 0000-03-01 to the given civil date, and whole seconds on the
    same scale: the instant a [Time] denotes. *)
Definition daysFromCivil (y m d : Z) : Z :=
  let y' := if m <=? 2 then y - 1 else y in
  let m' := if m <=? 2 then m + 9 else m - 3 in
  365 * y' + y' / 4 - y' / 100 + y' / 400 + (153 * m' + 2) / 5 + d - 1.

Definition Unix (t : Time) : Z :=
  ((daysFromCivil (year t) (month t) (day t) * 24 + hour t) * 60 + minute t) * 60
    + second t.

(** The field ranges of a [Time] that [Parse] can return. *)
Definition valid (t : Time) : Prop :=
  0 <= year t <= 9999 /\ 1 <= month t <= 12 /\
  1 <= day t <= daysIn (month t) (year t) /\
  0 <= hour t < 24 /\ 0 <= minute t < 60 /\ 0 <= second t < 60.

(** Two and four decimal digits spelled out, to reason about [appendInt]
    on the ranges the layout uses. *)
Definition two (x : Z) : string :=
  String (digitChar (x / 10)) (String (digitChar (x mod 10)) EmptyString).

Definition four (x : Z) : string :=
  String (digitChar (x / 1000)) (String (digitChar (x / 100 mod 10))
    (String (digitChar (x / 10 mod 10)) (String (digitChar (x mod 10)) EmptyString))).

End time.

(** ** JSON values as [encoding/json] decodes them into [interface{}] *)

Inductive value : Type :=
  | VNil                                (* JSON null, and the nil interface *)
  | VBool (b : bool)
  | VNum (f : float)                    (* float64 *)
  | VStr (s : string)
  | VArr (l : list value)               (* []interface{} *)
  | VObj (m : gmap string value).       (* map[string]interface{} *)

(** [m[k]] on a [map[string]interface{}]: the nil interface when absent. *)
Definition field (m : gmap string value) (k : string) : value :=
  default VNil (m !! k).

(** [a == b] on two interface values: equal dynamic types are compared by
    value, and slices and maps of one dynamic type cannot be compared. *)
Definition ifaceEq (a b : value) : outcome bool :=
  match a, b with
  | VNil, VNil => Done true
  | VBool x, VBool y => Done (Bool.eqb x y)
  | VNum x, VNum y => Done (PrimFloat.eqb x y)
  | VStr x, VStr y => Done (String.eqb x y)
  | VArr _, VArr _ => Panic "comparing uncomparable type []interface {}"
  | VObj _, VObj _ => Panic "comparing uncomparable type map[string]interface {}"
  | _, _ => Done false
  end.

(** [v == s] for a string [s]: never panics. *)
Definition eqString (v : value) (s : string) : bool :=
  match v with
  | VStr x => String.eqb x s
  | _ => false
  end.

(** [v.(map[string]interface{})] without the comma-ok form. *)
Definition assertObject (v : value) : outcome (gmap string value) :=
  match v with
  | VObj m => Done m
  | _ => Panic "interface conversion: not map[string]interface {}"
  end.

(** [v.(string)] without the comma-ok form. *)
Definition assertString (v : value) : outcome string :=
  match v with
  | VStr s => Done s
  | _ => Panic "interface conversion: not string"
  end.

(** [s, _ := v.(string)]: the empty string when the assertion fails. *)
Definition stringOrZero (v : value) : string :=
  match v with
  | VStr s => s
  | _ => ""
  end.

(** An [error] value; Go's nil error is [None] of [option error]. *)
Inductive error : Type :=
  | Err (msg : string)
  | ErrSource (desc : value).           (* errors.New(fmt.Sprintf("%+v", errDesc)) *)

(** ** sources/snow/snow_data_reader.go *)

Module snow.

Record collectionState : Type := mkState {
  Version : string;
  NextRecordTime : string;
  LastTimeRecords : list string
}.

Definition endpointKey : string := "Endpoint".
Definition timestampFieldKey : string := "TimestampField".
Definition nextRecordTimeKey : string := "NextRecordTime".
Definition recordCountKey : string := "RecordCount".

(** A [[]byte] checkpoint payload.  [encoding/json] is outside the
    repository: a payload is identified with what [json.Unmarshal] into a
    [collectionState] makes of it. *)
Inductive payload : Type :=
  | Encoded (st : collectionState)
  | Malformed (raw : string).

Definition json_Marshal (st : collectionState) : payload := Encoded st.

Definition json_Unmarshal (p : payload) : option collectionState :=
  match p with
  | Encoded st => Some st
  | Malformed _ => None
  end.

(** Modelled from the spec: [base.Checkpointer], whose implementations are
    not under src/.  A durable blob for this task's key;
    [GetCheckpoint] returns it or fails, [WriteCheckpoint] replaces it or
    fails, and a failed write leaves the committed blob untouched. *)
Record Checkpointer : Type := mkCheckpointer {
  blob : option payload;
  getError : option error;
  writeError : option error
}.

Definition GetCheckpoint (c : Checkpointer) : option payload * option error :=
  match getError c with
  | Some e => (None, Some e)
  | None => (blob c, None)
  end.

Definition WriteCheckpoint (c : Checkpointer) (data : payload)
  : Checkpointer * option error :=
  match writeError c with
  | Some e => (c, Some e)
  | None => (mkCheckpointer (Some data) (getError c) (writeError c), None)
  end.

(** One entry of [Data.RawData]: a nil slice, or the bytes printed from a
    record (the map is ranged over in Go's unspecified order, so the entry
    is identified with the record). *)
Inductive row : Type :=
  | NilRow
  | Printed (r : gmap string value).

Record Data : Type := mkData {
  MetaInfo : gmap string string;
  RawData : list row
}.

(** Modelled from the spec: [base.DataWriter], not under src/.
    [WriteData] accepts the envelope or fails. *)
Record DataWriter : Type := mkWriter {
  written : list Data;
  writeDataError : option error
}.

Definition WriteData (w : DataWriter) (d : Data) : DataWriter * option error :=
  match writeDataError w with
  | Some e => (w, Some e)
  | None => (mkWriter (written w ++ [d]) (writeDataError w), None)
  end.

(** The HTTP body after gunzip.  [base.ToJsonObject] is not under src/: it
    decodes the body as a JSON object or fails. *)
Inductive body : Type :=
  | JsonBody (jobj : gmap string value)
  | BadBody (raw : string).

Definition ToJsonObject (b : body) : gmap string value + error :=
  match b with
  | JsonBody jobj => inl jobj
  | BadBody _ => inr (Err "invalid JSON")
  end.

(** What a GET of a URL comes to, step by step as [CollectData] checks. *)
Inductive fetch : Type :=
  | RequestFails (e : error)          (* http.NewRequest *)
  | DoFails (e : error)               (* http_client.Do *)
  | GzipFails (e : error)             (* gzip.NewReader *)
  | ReadFails (e : error)             (* ioutil.ReadAll *)
  | Fetched (b : body).

Record HttpClient : Type := mkHttp {
  respond : string -> fetch;
  requested : list string             (* URLs sent on the wire, oldest first *)
}.

Record BaseConfig : Type := mkConfig {
  ServerURL : string;
  Username : string;
  Password : string;
  AdditionalConfig : gmap string string
}.

Record SnowDataReader : Type := mkReader {
  config : BaseConfig;                (* the embedded *base.BaseConfig *)
  writer : DataWriter;
  checkpoint : Checkpointer;
  http_client : HttpClient;
  state : collectionState;
  collecting : Z;
  started : Z
}.

Definition with_state (snow : SnowDataReader) (st : collectionState) : SnowDataReader :=
  mkReader (config snow) (writer snow) (checkpoint snow) (http_client snow)
    st (collecting snow) (started snow).

Definition with_collecting (snow : SnowDataReader) (c : Z) : SnowDataReader :=
  mkReader (config snow) (writer snow) (checkpoint snow) (http_client snow)
    (state snow) c (started snow).

Definition with_writer (snow : SnowDataReader) (w : DataWriter) : SnowDataReader :=
  mkReader (config snow) w (checkpoint snow) (http_client snow)
    (state snow) (collecting snow) (started snow).

Definition with_checkpoint (snow : SnowDataReader) (c : Checkpointer) : SnowDataReader :=
  mkReader (config snow) (writer snow) c (http_client snow)
    (state snow) (collecting snow) (started snow).

Definition with_http (snow : SnowDataReader) (h : HttpClient) : SnowDataReader :=
  mkReader (config snow) (writer snow) (checkpoint snow) h
    (state snow) (collecting snow) (started snow).

(** [snow.AdditionalConfig[key]]. *)
Definition additional (snow : SnowDataReader) (key : string) : string :=
  get (AdditionalConfig (config snow)) key.

(** Methods on [*SnowDataReader]: the receiver is threaded through, and a
    panic keeps the receiver as it was when the panic was raised. *)
Definition M (A : Type) : Type := SnowDataReader -> outcome A * SnowDataReader.

#[global] Instance M_ret : MRet M := fun A a snow => (Done a, snow).
#[global] Instance M_bind : MBind M := fun A B f m snow =>
  match m snow with
  | (Done a, snow') => f a snow'
  | (Panic w, snow') => (Panic w, snow')
  end.

Definition lift {A} (o : outcome A) : M A := fun snow => (o, snow).
Definition gets {A} (f : SnowDataReader -> A) : M A := fun snow => (Done (f snow), snow).
Definition modify (f : SnowDataReader -> SnowDataReader) : M unit :=
  fun snow => (Done tt, f snow).

(** [defer cleanup] around a body: the cleanup runs when the body returns
    and when it panics. *)
Definition defer {A} (cleanup : SnowDataReader -> SnowDataReader) (m : M A) : M A :=
  fun snow => let '(r, snow') := m snow in (r, cleanup snow').

(** [NewSnowDataReader]; [None] is the nil reader.  The HTTP client is
    created inside; its argument here is the network it will talk to. *)
Definition NewSnowDataReader (cfg : BaseConfig) (w : DataWriter)
    (checkpointer : Checkpointer) (net : string -> fetch) : option SnowDataReader :=
  let acquiredConfigs := [endpointKey; timestampFieldKey; nextRecordTimeKey] in
  if forallb (fun key => bool_decide (is_Some (AdditionalConfig cfg !! key))) acquiredConfigs
  then Some (mkReader cfg w checkpointer (mkHttp net []) (mkState "" "" []) 0 0)
  else None.

Definition getCheckpoint : M (option collectionState) := fun snow =>
  if negb (String.eqb (NextRecordTime (state snow)) "") then
    (Done (Some (state snow)), snow)
  else
    match GetCheckpoint (checkpoint snow) with
    | (Some ck, None) =>
        match json_Unmarshal ck with
        | Some currentState => (Done (Some currentState), with_state snow currentState)
        | None => (Done None, snow)
        end
    | _ => (Done None, snow)
    end.

Definition getNextRecordTime : M string :=
  st ← getCheckpoint;
  _ ← match st with
      | None =>
          modify (fun snow =>
            with_state snow (mkState (Version (state snow))
                                     (additional snow nextRecordTimeKey)
                                     (LastTimeRecords (state snow))))
      | Some _ => mret tt
      end;
  gets (fun snow => gostrings.ReplaceFirst (NextRecordTime (state snow)) " " "+").

(** What [getURL] writes to its buffer, given the cursor text. *)
Definition urlFor (snow : SnowDataReader) (nextRecordTime : string) : string :=
  ServerURL (config snow) +:+ "/" +:+ additional snow endpointKey
    +:+ ".do?JSONv2&sysparm_query=" +:+ additional snow timestampFieldKey
    +:+ ">=" +:+ nextRecordTime
    +:+ "^ORDERBY" +:+ additional snow timestampFieldKey
    +:+ "&sysparm_record_count=" +:+ additional snow recordCountKey.

Definition getURL : M string :=
  nextRecordTime ← getNextRecordTime;
  gets (fun snow => urlFor snow nextRecordTime).

(** [atomic.CompareAndSwapInt32(&snow.collecting, old, new)]. *)
Definition CompareAndSwapCollecting (old new : Z) : M bool := fun snow =>
  if collecting snow =? old then (Done true, with_collecting snow new)
  else (Done false, snow).

(** The request of [CollectData] once the guard is held. *)
Definition doRequest : M (option body * option error) :=
  url ← getURL;
  h ← gets http_client;
  match respond h url with
  | RequestFails e => mret (None, Some e)
  | answer =>
      _ ← modify (fun snow => with_http snow (mkHttp (respond h) (requested h ++ [url])));
      match answer with
      | Fetched b => mret (Some b, None)
      | RequestFails e | DoFails e | GzipFails e | ReadFails e => mret (None, Some e)
      end
  end.

Definition CollectData : M (option body * option error) :=
  swapped ← CompareAndSwapCollecting 0 1;
  if negb swapped then
    _ ← getURL;                       (* evaluated for the log line *)
    mret (None, None)
  else
    defer (fun snow => with_collecting snow 0) doRequest.

Definition doRemoveRecords (snow : SnowDataReader) (records : list value)
    (lastTimeRecords : gmap string bool) (lastRecordTime : string) : list value :=
  let timefield := additional snow timestampFieldKey in
  let step (acc : list string * list value) (x : value) :=
    let '(recordsToBeRemoved, recordsToBeIndexed) := acc in
    match x with
    | VObj r =>
        if eqString (field r timefield) lastRecordTime then
          let sysId := stringOrZero (field r "sys_id") in
          match lastTimeRecords !! sysId with
          | Some _ => (recordsToBeRemoved ++ [sysId], recordsToBeIndexed)
          | None => (recordsToBeRemoved, recordsToBeIndexed ++ [VObj r])
          end
        else (recordsToBeRemoved, recordsToBeIndexed ++ [VObj r])
    | _ => acc                        (* unknown format: logged, skipped *)
    end in
  snd (foldl step ([], []) records).

(** Following the spec's words: a record of the page is a duplicate when
    its timestamp equals the checkpoint's [nextRecordTime] and its ID
    appears in [lastTimeRecords].  The ID is read as [doRemoveRecords]
    reads it. *)
Definition duplicate (timefield : string) (ck : collectionState)
    (r : gmap string value) : bool :=
  eqString (field r timefield) (NextRecordTime ck)
  && bool_decide (stringOrZero (field r "sys_id") ∈ LastTimeRecords ck).

(** What the loop of [doRemoveRecords] decides for one entry of the page. *)
Definition kept (timefield : string) (ck : collectionState) (x : value) : bool :=
  match x with
  | VObj r => negb (duplicate timefield ck r)
  | _ => false
  end.

(** The map built from [ck.LastTimeRecords]. *)
Definition toSet (ids : list string) : gmap string bool :=
  foldl (fun m id => <[id := true]> m) ∅ ids.

Definition removeCollectedRecords (records : list value) : M (list value * bool) :=
  ck ← getCheckpoint;
  match ck with
  | None => mret (records, false)
  | Some ck =>
      if (length (LastTimeRecords ck) =? 0)%nat || (length records =? 0)%nat then
        mret (records, false)
      else
        let lastTimeRecords := toSet (LastTimeRecords ck) in
        let lastRecordTime := NextRecordTime ck in
        snow ← gets id;
        let recordsToBeIndexed := doRemoveRecords snow records lastTimeRecords lastRecordTime in
        let recordCount := fst (strconv.Atoi (additional snow recordCountKey)) in
        if Z.of_nat (length records) =? recordCount then
          firstRecord ← lift (assertObject (default VNil (head records)));
          lastRecord ← lift (assertObject (default VNil (last records)));
          let timefield := additional snow timestampFieldKey in
          same ← lift (ifaceEq (field firstRecord timefield) (field lastRecord timefield));
          if same : bool then
            match time.Parse lastRecordTime with
            | None => mret ([], false)
            | Some nextRecordTime =>
                let nextRecordTime := time.AddSecond nextRecordTime in
                _ ← modify (fun snow =>
                      with_state snow (mkState (Version (state snow))
                                               (time.Format nextRecordTime) []));
                mret (recordsToBeIndexed, true)
            end
          else mret (recordsToBeIndexed, false)
        else mret (recordsToBeIndexed, false)
  end.

(** The backward scan of [writeCheckpoint], over the reversed records. *)
Fixpoint scanMaxTimestamp (timefield : string) (lastTime : value)
    (backwards : list value) (maxTimestampRecords : list string) : outcome (list string) :=
  match backwards with
  | [] => Done maxTimestampRecords
  | x :: rest =>
      r ← assertObject x;
      same ← ifaceEq (field r timefield) lastTime;
      if same : bool then
        sysId ← assertString (field r "sys_id");
        scanMaxTimestamp timefield lastTime rest (maxTimestampRecords ++ [sysId])
      else Done maxTimestampRecords
  end.

Definition writeCheckpoint (records : list value) (refreshed : bool) : M (option error) :=
  if (length records =? 0)%nat then mret None
  else
    snow ← gets id;
    let timefield := additional snow timestampFieldKey in
    let lastRecord :=
      match last records with
      | Some (VObj r) => r
      | _ => ∅                        (* comma-ok assertion: the nil map *)
      end in
    maxTimestampRecords ←
      lift (scanMaxTimestamp timefield (field lastRecord timefield) (reverse records) []);
    nextRecordTime ← lift (assertString (field lastRecord timefield));
    let currentState := mkState "1" nextRecordTime maxTimestampRecords in
    let data := json_Marshal currentState in
    let '(ck', err) := WriteCheckpoint (checkpoint snow) data in
    _ ← modify (fun snow => with_checkpoint snow ck');
    match err with
    | Some e => mret (Some e)
    | None =>
        _ ← (if refreshed then mret tt
             else modify (fun snow => with_state snow currentState));
        mret None
    end.

Fixpoint printRecords (records : list value) : outcome (list row) :=
  match records with
  | [] => Done []
  | x :: rest =>
      r ← assertObject x;
      rows ← printRecords rest;
      Done (Printed r :: rows)
  end.

Section IndexData.

(** The keys [base.ServerURL] and [base.Username] of the envelope's
    meta information; package base is not under src/. *)
Variables base_ServerURL base_Username : string.

Definition IndexData : M (option error) :=
  '(data, err) ← CollectData;
  match data, err with
  | Some data, None =>
      match ToJsonObject data with
      | inr err => mret (Some err)
      | inl jobj =>
          match jobj !! "records" with
          | Some (VArr records) =>
              snow ← gets id;
              let metaInfo : gmap string string :=
                <[endpointKey := additional snow endpointKey]>
                  (<[base_Username := Username (config snow)]>
                     (<[base_ServerURL := ServerURL (config snow)]> ∅)) in
              '(records, refreshed) ← removeCollectedRecords records;
              rows ← lift (printRecords records);
              let allData := mkData metaInfo (replicate (length records) NilRow ++ rows) in
              if (0 <? length records)%nat then
                snow ← gets id;
                let '(w', err) := WriteData (writer snow) allData in
                _ ← modify (fun snow => with_writer snow w');
                match err with
                | Some e => mret (Some e)
                | None => writeCheckpoint records refreshed
                end
              else mret None
          | _ =>
              match jobj !! "error" with
              | Some errDesc =>
                  _ ← getURL;       (* evaluated for the log line *)
                  mret (Some (ErrSource errDesc))
              | None => mret None
              end
          end
      end
  | _, _ => mret err
  end.

End IndexData.

(** *** The reader's lifecycle and the shape of well-formed pages *)

(** The calls [Start] and [Stop] make on the reader's collaborators. *)
Inductive lifecycle : Type :=
  | WriterStart
  | CheckpointStart
  | WriterStop
  | CheckpointStop.

Definition with_started (snow : SnowDataReader) (s : Z) : SnowDataReader :=
  mkReader (config snow) (writer snow) (checkpoint snow) (http_client snow)
    (state snow) (collecting snow) s.

(** [Start]: the calls it makes and the reader it leaves. *)
Definition Start (snow : SnowDataReader) : list lifecycle * SnowDataReader :=
  if started snow =? 0              (* CompareAndSwapInt32(&snow.started, 0, 1) *)
  then ([WriterStart; CheckpointStart], with_started snow 1)
  else ([], snow).

Definition Stop (snow : SnowDataReader) : list lifecycle * SnowDataReader :=
  if started snow =? 1              (* CompareAndSwapInt32(&snow.started, 1, 0) *)
  then ([WriterStop; CheckpointStop], with_started snow 0)
  else ([], snow).

(** The timestamp and the ID of a record, read with the comma-ok form. *)
Definition timeOf (timefield : string) (r : gmap string value) : string :=
  stringOrZero (field r timefield).

Definition idOf (r : gmap string value) : string :=
  stringOrZero (field r "sys_id").

(** A record that carries a string timestamp and a string ID. *)
Definition wellFormed (timefield : string) (r : gmap string value) : Prop :=
  (exists t, r !! timefield = Some (VStr t)) /\ (exists id, r !! "sys_id" = Some (VStr id)).

(** The records at the head of a list whose timestamp is [t]. *)
Fixpoint sameTime (timefield t : string) (l : list (gmap string value))
    : list (gmap string value) :=
  match l with
  | [] => []
  | r :: rest =>
      if String.eqb (timeOf timefield r) t then r :: sameTime timefield t rest else []
  end.

(** The records of a page that share the timestamp of its last record and
    sit at its end, newest first. *)
Definition lastRun (timefield : string) (page : list (gmap string value))
    : list (gmap string value) :=
  match last page with
  | Some r => sameTime timefield (timeOf timefield r) (reverse page)
  | None => []
  end.

(** The checkpoint [writeCheckpoint] computes from a page of well-formed
    records whose last record is [lastRecord]. *)
Definition checkpointOf (timefield : string) (page : list (gmap string value))
    (lastRecord : gmap string value) : collectionState :=
  mkState "1" (timeOf timefield lastRecord) (idOf <$> lastRun timefield page).

(** What [CollectData] returns for an answer of the source. *)
Definition resultOf (answer : fetch) : option body * option error :=
  match answer with
  | Fetched b => (Some b, None)
  | RequestFails e | DoFails e | GzipFails e | ReadFails e => (None, Some e)
  end.

End snow.

(** ** services/collect_service.go *)

Module services.

(** The constants of package base that the service reads; the package is
    not under src/, so their values are parameters. *)
Record Base : Type := mkBase {
  Host : string;
  Platform : string;
  App : string;
  CpuCount : string;
  Timestamp : string;
  Heartbeat : string;
  HeartbeatRoot : string;
  KafkaBrokers : string;
  KafkaTopic : string;
  Key : string;
  TaskStats : string;
  TaskConfigKey : string
}.

(** One entry of [Data.RawData] on the task topic, identified with what
    [json.Unmarshal] into a [base.BaseConfig] makes of it. *)
Inductive rawTask : Type :=
  | Task (taskConfig : gmap string string)
  | Garbled (raw : string).

Record Data : Type := mkData {
  MetaInfo : gmap string string;
  RawData : list rawTask
}.

(** What the heartbeat reporter does to its collaborators. *)
Inductive hbEvent : Type :=
  | ZkCreateNode (node : string) (rawData : gmap string string) (ephemeral overwrite : bool)
  | KafkaWriterStart
  | KafkaWriterStop
  | KafkaWriteData (rawData : list (gmap string string)).

(** One round of the event-log loop as the reporter meets it: the value
    [atomic.LoadInt32(&cs.started)] has at the loop head and, for when the
    ticker fires, [time.Now().UnixNano()] and [jobFactory.Apps()]. *)
Record tick : Type := mkTick {
  startedSeen : Z;
  now : Z;
  apps : list string
}.

(** How a run over a finite schedule ends: the function returned, it is
    still in its loop when the schedule is used up, or it panicked. *)
Inductive status : Type :=
  | Returned
  | Running
  | Panicked (why : string).

Section CollectService.

Variable base : Base.

(** [base.Job], an interface with [Start], [Stop] and [Callback]. *)
Context {Job : Type}.

(** Modelled from the spec: [JobFactory.CreateJob], not under src/.  An
    unknown application type gives the nil Job, here [None]. *)
Variable CreateJob : string -> gmap string string -> option Job.

Inductive jobEvent : Type :=
  | JobStart (job : Job)
  | GoCallback (job : Job).         (* go job.Callback() *)

Record CollectService : Type := mkService {
  config : gmap string string;
  jobs : gmap string Job;
  host : string;
  started : Z;
  GOOS : string;                    (* runtime.GOOS *)
  NumCPU : string;                  (* fmt.Sprintf("%d", runtime.NumCPU()) *)
  calls : list jobEvent             (* calls made on jobs, oldest first *)
}.

Definition with_jobs (cs : CollectService) (js : gmap string Job)
    (evs : list jobEvent) : CollectService :=
  mkService (config cs) js (host cs) (started cs) (GOOS cs) (NumCPU cs)
    (calls cs ++ evs).

(** The [stats] map as it is marshalled for one application. *)
Definition statsFor (cs : CollectService) (timestamp : Z) (app : string)
    : gmap string string :=
  <[App base := app]>
    (<[Timestamp base := strconv.Itoa timestamp]>
      (<[Timestamp base := ""]>
        (<[CpuCount base := NumCPU cs]>
          (<[App base := ""]>
            (<[Platform base := GOOS cs]>
              (<[Host base := host cs]> ∅)))))).

Definition doHeartbeatsThroughZooKeeper (cs : CollectService)
    (timeNow : Z) (factoryApps : list string) : list hbEvent * status :=
  (map (fun app =>
          ZkCreateNode (HeartbeatRoot base +:+ "/" +:+ host cs +:+ "!" +:+ app)
                       (statsFor cs timeNow app) true true)
       factoryApps,
   Returned).

(** The body of [case <-ticker]. *)
Definition publish (cs : CollectService) (t : tick) : list hbEvent :=
  map (fun app => KafkaWriteData [statsFor cs (now t) app]) (apps t).

(** [for atomic.LoadInt32(&cs.started) != 0 { select { case <-ticker: ... } }] *)
Fixpoint heartbeatLoop (cs : CollectService) (schedule : list tick)
    : list hbEvent * bool :=
  match schedule with
  | [] => ([], false)
  | t :: rest =>
      if startedSeen t =? 0 then ([], true)
      else
        let '(evs, exited) := heartbeatLoop cs rest in
        (publish cs t ++ evs, exited)
  end.

(** [writerCreated] tells whether [NewKafkaDataWriter] gave a writer. *)
Definition doHeartBeatsThroughKafka (cs : CollectService)
    (writerCreated : bool) (schedule : list tick) : list hbEvent * status :=
  if negb writerCreated then ([], Panicked "Failed to create kafka writer")
  else
    let '(evs, exited) := heartbeatLoop cs schedule in
    if exited then ([KafkaWriterStart] ++ evs ++ [KafkaWriterStop], Returned)
    else ([KafkaWriterStart] ++ evs, Running).

Definition doHeartbeats (cs : CollectService) (timeNow : Z)
    (factoryApps : list string) (writerCreated : bool) (schedule : list tick)
    : list hbEvent * status :=
  if negb (String.eqb (get (config cs) (Heartbeat base)) "kafka") then
    doHeartbeatsThroughZooKeeper cs timeNow factoryApps
  else doHeartBeatsThroughKafka cs writerCreated schedule.

(** The loop of [handleTasks] over [data.RawData]. *)
Fixpoint handleEach (metaInfo : gmap string string) (raws : list rawTask)
    (cs : CollectService) : CollectService :=
  match raws with
  | [] => cs
  | Garbled _ :: rest => handleEach metaInfo rest cs            (* continue *)
  | Task taskConfig :: rest =>
      match taskConfig !! App base with
      | None => handleEach metaInfo rest cs                      (* continue *)
      | Some _ =>
          if negb (String.eqb (get metaInfo (Host base)) (host cs)) then cs  (* return *)
          else
            let key := get taskConfig (TaskConfigKey base) in
            match jobs cs !! key with
            | Some cached =>
                handleEach metaInfo rest (with_jobs cs (jobs cs) [GoCallback cached])
            | None =>
                match CreateJob (get taskConfig (App base)) taskConfig with
                | None => cs                                     (* return *)
                | Some job =>
                    handleEach metaInfo rest
                      (with_jobs cs (<[key := job]> (jobs cs)) [JobStart job; GoCallback job])
                end
            end
      end
  end.

Definition handleTasks (data : Data) (cs : CollectService) : CollectService :=
  match MetaInfo data !! Host base with
  | None => cs
  | Some _ => handleEach (MetaInfo data) (RawData data) cs
  end.

End CollectService.

(** *** The service's lifecycle and the task listeners *)

Section Lifecycle.

Context {Job : Type}.

(** What [Start], [Stop] and [monitorTasks] do besides changing the
    service. *)
Inductive serviceEvent : Type :=
  | GoMonitorTasks (topic : string)   (* go cs.monitorTasks(base.Tasks) *)
  | GoHeartbeats                      (* go cs.doHeartbeats() *)
  | FactoryCloseClients
  | ClientClose
  | ZkClientClose
  | JobStop (job : Job).

Definition with_started (cs : @CollectService Job) (s : Z) : CollectService :=
  mkService (config cs) (jobs cs) (host cs) s (GOOS cs) (NumCPU cs) (calls cs).

(** [NewCollectService]; the arguments after the configuration tell whether
    the broker client and the coordination client could be built, what
    [os.Hostname] gave, and the platform the process reports. *)
Definition NewCollectService (cfg : gmap string string) (client zkClient : bool)
    (hostname : option string) (goos numCPU : string) : option (@CollectService Job) :=
  if negb client then None
  else if negb zkClient then None
  else
    match hostname with
    | None => None
    | Some h => Some (mkService cfg ∅ h 0 goos numCPU [])
    end.

(** [Start]; [tasksTopic] is the constant [base.Tasks]. *)
Definition Start (tasksTopic : string) (cs : @CollectService Job)
    : list serviceEvent * CollectService :=
  if started cs =? 0                (* CompareAndSwapInt32(&cs.started, 0, 1) *)
  then ([GoMonitorTasks tasksTopic; GoHeartbeats], with_started cs 1)
  else ([], cs).

(** [Stop]; the jobs are ranged over in the order of the map's listing, Go
    leaves the order open. *)
Definition Stop (cs : @CollectService Job) : list serviceEvent * CollectService :=
  if started cs =? 1                (* CompareAndSwapInt32(&cs.started, 1, 0) *)
  then ([FactoryCloseClients; ClientClose; ZkClientClose]
          ++ (JobStop <$> (map_to_list (jobs cs)).*2),
        with_started cs 0)
  else ([], cs).

(** [monitorTasks] up to the goroutines it starts: the partitions that got
    a listener.  [topicPartitions] is what [TopicPartitions] returned, [None]
    for an error; [readerCreated] tells for which partition
    [NewKafkaDataReader] gave a reader. *)
Fixpoint spawnListeners (readerCreated : Z -> bool) (partitions : list Z)
    : list Z * status :=
  match partitions with
  | [] => ([], Returned)
  | partition :: rest =>
      if negb (readerCreated partition) then ([], Panicked "Failed to create kafka reader")
      else
        let '(spawned, st) := spawnListeners readerCreated rest in
        (partition :: spawned, st)
  end.

Definition monitorTasks (topic : string) (topicPartitions : option (gmap string (list Z)))
    (readerCreated : Z -> bool) : list Z * status :=
  match topicPartitions with
  | None => ([], Panicked ("Failed to get partitions for topic=" +:+ topic))
  | Some partitions => spawnListeners readerCreated (default [] (partitions !! topic))
  end.

(** One round of a listener: the value of [cs.started] at the loop head and
    the batch then received from the writer's channel. *)
Record delivery : Type := mkDelivery {
  startedAtHead : Z;
  delivered : Data
}.

(** [for atomic.LoadInt32(&cs.started) != 0 { data := <-writer.Data(); cs.handleTasks(data) }]
    over a finite schedule; the flag tells whether the loop was left. *)
Fixpoint listen (base : Base) (CreateJob : string -> gmap string string -> option Job)
    (schedule : list delivery) (cs : @CollectService Job) : CollectService * bool :=
  match schedule with
  | [] => (cs, false)
  | d :: rest =>
      if startedAtHead d =? 0 then (cs, true)
      else listen base CreateJob rest (handleTasks base CreateJob (delivered d) cs)
  end.

End Lifecycle.

(** *** Reading batches and call logs *)

Section Batches.

Variable base : Base.
Context {Job : Type}.

(** An entry the loop of [handleTasks] acts on: decoded, with an
    application type. *)
Definition usable (raw : rawTask) : bool :=
  match raw with
  | Task taskConfig => bool_decide (is_Some (taskConfig !! App base))
  | Garbled _ => false
  end.

(** The job a logged call was made on. *)
Definition jobOf (ev : @jobEvent Job) : Job :=
  match ev with
  | JobStart job => job
  | GoCallback job => job
  end.

Definition isStart (ev : @jobEvent Job) : bool :=
  match ev with
  | JobStart _ => true
  | GoCallback _ => false
  end.

End Batches.

End services.

(** ** Concrete readers, pages and services used in the examples *)

Module samples.

Import snow.

Definition T0 : string := "2015-01-01 10:00:00".
Definition T1 : string := "2015-01-01 10:00:01".
Definition T2 : string := "2015-01-01 10:00:02".

Definition timefield : string := "sys_updated_on".

Definition record (id t : string) : gmap string value :=
  <["sys_id" := VStr id]> (<[timefield := VStr t]> ∅).

(** A record that lacks its [sys_id]. *)
Definition anonymous (t : string) : gmap string value :=
  <[timefield := VStr t]> ∅.

(** A record that lacks its timestamp. *)
Definition undated (id : string) : gmap string value :=
  <["sys_id" := VStr id]> ∅.

Definition additionalConfig (recordCount : option string) : gmap string string :=
  let required : gmap string string :=
    <[endpointKey := "incident"]>
      (<[timestampFieldKey := timefield]>
        (<[nextRecordTimeKey := T0]> ∅)) in
  match recordCount with
  | Some n => <[recordCountKey := n]> required
  | None => required
  end.

Definition baseConfig (recordCount : option string) : BaseConfig :=
  mkConfig "https://example.service-now.com" "collector" "secret"
    (additionalConfig recordCount).

(** A source that answers every request with the same page. *)
Definition answering (page : list value) : string -> fetch :=
  fun _ => Fetched (JsonBody (<["records" := VArr page]> ∅)).

Definition reader (recordCount : option string) (st : collectionState)
    (page : list value) (checkpointWriteError : option error) : SnowDataReader :=
  mkReader (baseConfig recordCount) (mkWriter [] None)
    (mkCheckpointer None None checkpointWriteError)
    (mkHttp (answering page) []) st 0 0.

(** Two records that fill a page of two at one timestamp. *)
Definition fullPage : list value := [VObj (record "a" T1); VObj (record "b" T1)].

(** Three records at the checkpoint's timestamp, two of them committed. *)
Definition growingPage : list value :=
  [VObj (record "b" T1); VObj (record "c" T1); VObj (record "d" T1)].

(** The page of the spec's dedup scenario. *)
Definition dedupPage : list (gmap string value) :=
  [record "b" T1; record "c" T1; record "d" T2].

(** A well-formed record followed by one without an ID. *)
Definition pageWithAnonymous : list value :=
  [VObj (record "a" T0); VObj (anonymous T1)].

(** The rows handed to the writer, envelope by envelope. *)
Definition emitted (snow : SnowDataReader) : list (list row) :=
  RawData <$> written (writer snow).

Definition base : services.Base :=
  services.mkBase "Host" "Platform" "App" "CpuCount" "Timestamp" "Heartbeat"
    "/heartbeats" "KafkaBrokers" "KafkaTopic" "Key" "TaskStats" "TaskConfigKey".

(** A factory that knows the application type "snow" only; a job is
    named after its task. *)
Definition createJob (app : string) (taskConfig : gmap string string) : option string :=
  if String.eqb app "snow" then Some ("job-" +:+ get taskConfig "TaskConfigKey")
  else None.

Definition service (heartbeat : string) : @services.CollectService string :=
  services.mkService (<["Heartbeat" := heartbeat]> ∅) ∅ "worker-1" 1 "linux" "8" [].

Definition task (app key : string) : services.rawTask :=
  services.Task (<["App" := app]> (<["TaskConfigKey" := key]> ∅)).

Definition batch (tasks : list services.rawTask) : services.Data :=
  services.mkData (<["Host" := "worker-1"]> ∅) tasks.

Definition beat (seen moment : Z) : services.tick :=
  services.mkTick seen moment ["snow"].

(** A source that gives the same answer to every request. *)
Definition always (answer : fetch) : string -> fetch := fun _ => answer.

Definition readerOn (recordCount : option string) (st : collectionState)
    (net : string -> fetch) (w : DataWriter) (ckp : Checkpointer) : SnowDataReader :=
  mkReader (baseConfig recordCount) w ckp (mkHttp net []) st 0 0.

(** Two records at different times, then two that share the last one. *)
Definition mixedPage : list (gmap string value) :=
  [record "a" T0; record "b" T1; record "c" T1].

Definition taskConfigOf (app key : string) : gmap string string :=
  <["App" := app]> (<["TaskConfigKey" := key]> ∅).

(** A service that is running and has one job cached. *)
Definition busyService : @services.CollectService string :=
  services.mkService (<["Heartbeat" := "kafka"]> ∅) (<["t1" := "job-t1"]> ∅)
    "worker-1" 1 "linux" "8" [].

Definition batchFor (hostName : string) (tasks : list services.rawTask) : services.Data :=
  services.mkData (<["Host" := hostName]> ∅) tasks.

End samples.

(** * Properties *)

(** ** The time layout: what [Parse] accepts, one second later, and back *)

Module time_facts.

Import strconv time.

Example Atoi_100 : Atoi "100" = (100, true).
Proof. reflexivity. Qed.

Example Parse_sample :
  Parse "2015-03-31 23:59:59" = Some (mkTime 2015 3 31 23 59 59 0).
Proof. reflexivity. Qed.

Example Parse_rejects_day : Parse "2015-02-29 10:00:00" = None.
Proof. reflexivity. Qed.

Example Format_sample :
  Format (AddSecond (mkTime 2015 12 31 23 59 59 0)) = "2016-01-01 00:00:00".
Proof. reflexivity. Qed.

Lemma isDigit_digitVal c : isDigit c = true -> 0 <= digitVal c <= 9.
Proof.
  unfold isDigit, digitVal. intros H. apply andb_true_iff in H as [H1 H2].
  apply Nat.leb_le in H1, H2. lia.
Qed.

Lemma getnum_range s fixed n rest :
  getnum s fixed = Some (n, rest) -> 0 <= n <= 99.
Proof.
  unfold getnum. destruct s as [|c0 s]; [done|].
  destruct (isDigit c0) eqn:H0; [|done].
  pose proof (isDigit_digitVal _ H0).
  destruct s as [|c1 s].
  - destruct fixed; [done|]. intros [= <- <-]. lia.
  - destruct (isDigit c1) eqn:H1.
    + pose proof (isDigit_digitVal _ H1). intros [= <- <-]. lia.
    + destruct fixed; [done|]. intros [= <- <-]. lia.
Qed.

Lemma longYear_range s y rest : longYear s = Some (y, rest) -> 0 <= y <= 9999.
Proof.
  unfold longYear. destruct s as [|a [|b [|c [|d s]]]]; try done.
  cbn [digits].
  destruct (isDigit a) eqn:Ha; [|done]. destruct (isDigit b) eqn:Hb; [|done].
  destruct (isDigit c) eqn:Hc; [|done]. destruct (isDigit d) eqn:Hd; [|done].
  cbn. intros [= <- <-].
  apply isDigit_digitVal in Ha, Hb, Hc, Hd. lia.
Qed.

Lemma Parse_valid s t : Parse s = Some t -> valid t.
Proof.
  unfold Parse. intros H.
  repeat (simplify_option_eq || case_match || destruct (fraction _)).
  all: unfold valid; cbn.
  all: repeat match goal with
       | H : getnum _ _ = Some _ |- _ => apply getnum_range in H
       | H : longYear _ = Some _ |- _ => apply longYear_range in H
       end; try lia.
Qed.

Lemma isLeap_spec y :
  isLeap y = true <-> (y mod 4 = 0 /\ (y mod 100 <> 0 \/ y mod 400 = 0)).
Proof.
  unfold isLeap. rewrite andb_true_iff, orb_true_iff, negb_true_iff.
  rewrite !Z.eqb_eq, Z.eqb_neq. tauto.
Qed.

Lemma div_pred y k :
  0 < k -> (y - 1) / k = y / k - (if y mod k =? 0 then 1 else 0).
Proof.
  intros Hk. destruct (Z.eqb_spec (y mod k) 0) as [E|E].
  - symmetry. apply Z.div_unique with (r := k - 1); [lia|].
    pose proof (Z.div_mod y k ltac:(lia)). nia.
  - symmetry. apply Z.div_unique with (r := y mod k - 1).
    + pose proof (Z.mod_pos_bound y k Hk). lia.
    + pose proof (Z.div_mod y k ltac:(lia)). nia.
Qed.

Lemma mod_400_100 y : y mod 400 = 0 -> y mod 100 = 0.
Proof.
  intros H. apply Z.mod_divide in H; [|lia]. apply Z.mod_divide; [lia|].
  destruct H as [q ->]. exists (q * 4). lia.
Qed.

Lemma mod_100_4 y : y mod 100 = 0 -> y mod 4 = 0.
Proof.
  intros H. apply Z.mod_divide in H; [|lia]. apply Z.mod_divide; [lia|].
  destruct H as [q ->]. exists (q * 25). lia.
Qed.

Lemma february y :
  daysFromCivil y 3 1 = daysFromCivil y 2 (if isLeap y then 29 else 28) + 1.
Proof.
  unfold daysFromCivil. cbn.
  rewrite !div_pred by lia.
  pose proof (mod_400_100 y). pose proof (mod_100_4 y).
  unfold isLeap.
  destruct (Z.eqb_spec (y mod 4) 0), (Z.eqb_spec (y mod 100) 0),
    (Z.eqb_spec (y mod 400) 0); cbn; Z.div_mod_to_equations; lia.
Qed.

Lemma next_month y m :
  1 <= m < 12 -> daysFromCivil y (m + 1) 1 = daysFromCivil y m (daysIn m y) + 1.
Proof.
  intros Hm.
  assert (m = 1 \/ m = 2 \/ m = 3 \/ m = 4 \/ m = 5 \/ m = 6 \/ m = 7 \/ m = 8 \/ m = 9 \/
          m = 10 \/ m = 11) as C by lia.
  destruct C as [->|[->|[->|[->|[->|[->|[->|[->|[->|[->| ->]]]]]]]]]];
    match goal with
    | |- context [daysFromCivil _ (?a + 1) _] =>
        let v := eval vm_compute in (a + 1) in change (a + 1) with v
    end;
    try (unfold daysFromCivil, daysIn; cbn; Z.div_mod_to_equations; lia).
  unfold daysIn. cbn [Z.eqb]. apply february.
Qed.

Lemma next_year y : daysFromCivil (y + 1) 1 1 = daysFromCivil y 12 31 + 1.
Proof.
  unfold daysFromCivil. cbn. replace (y + 1 - 1) with y by lia.
  Z.div_mod_to_equations; lia.
Qed.

Lemma Unix_AddSecond t : valid t -> Unix (AddSecond t) = Unix t + 1.
Proof.
  intros (Hy & Hm & Hd & Hh & Hmi & Hs). unfold AddSecond, Unix.
  repeat case_match; cbn [year month day hour minute second];
    repeat match goal with
      | H : (_ <? _) = true |- _ => apply Z.ltb_lt in H
      | H : (_ <? _) = false |- _ => apply Z.ltb_ge in H
      end; try lia.
  - unfold daysFromCivil. lia.
  - assert (day t = daysIn (month t) (year t)) as E by lia.
    rewrite next_month by lia. rewrite E. lia.
  - assert (month t = 12) as E by lia. rewrite E in *.
    assert (day t = 31) as E' by (unfold daysIn in *; cbn in *; lia).
    rewrite next_year, E'. lia.
Qed.

Lemma below_by_table (P : Z -> bool) (n : Z) :
  forallb (fun k => P (Z.of_nat k)) (seq 0 (Z.to_nat n)) = true ->
  forall x, 0 <= x < n -> P x = true.
Proof.
  intros H x Hx. rewrite forallb_forall in H.
  specialize (H (Z.to_nat x)). rewrite Z2Nat.id in H by lia.
  apply H. apply in_seq. lia.
Qed.

Lemma appendInt_two x : 0 <= x < 100 -> appendInt x 2 = two x.
Proof.
  intros Hx. apply String.eqb_eq.
  apply (below_by_table (fun x => String.eqb (appendInt x 2) (two x)) 100); [|lia].
  vm_compute. reflexivity.
Qed.

Lemma decimal_last fuel x acc :
  x < 10 -> decimal (S fuel) x acc = String (digitChar (x mod 10)) acc.
Proof.
  intros H. cbn [decimal]. destruct (Z.ltb_spec x 10); [reflexivity|lia].
Qed.

Lemma decimal_more fuel x acc :
  10 <= x ->
  decimal (S fuel) x acc = decimal fuel (x / 10) (String (digitChar (x mod 10)) acc).
Proof.
  intros H. cbn [decimal]. destruct (Z.ltb_spec x 10); [lia|reflexivity].
Qed.

Lemma fuel_enough x k :
  2 ^ k <= x -> 0 <= k -> exists n, Z.to_nat (Z.log2 x) = (Z.to_nat k + n)%nat.
Proof.
  intros Hx Hk. exists (Z.to_nat (Z.log2 x) - Z.to_nat k)%nat.
  assert (k <= Z.log2 x).
  { rewrite <- (Z.log2_pow2 k Hk). apply Z.log2_le_mono. exact Hx. }
  lia.
Qed.

Lemma appendInt_four x : 0 <= x < 10000 -> appendInt x 4 = four x.
Proof.
  intros Hx. unfold appendInt, four.
  destruct (Z.ltb_spec x 0); [lia|]. rewrite Z.abs_eq by lia.
  destruct (Z.lt_ge_cases x 10) as [H1|H1];
    [|destruct (Z.lt_ge_cases x 100) as [H2|H2];
      [|destruct (Z.lt_ge_cases x 1000) as [H3|H3]]].
  - rewrite decimal_last by lia. cbn [String.length Nat.sub zeros].
    replace (x / 1000) with 0 by (Z.div_mod_to_equations; lia).
    replace (x / 100 mod 10) with 0 by (Z.div_mod_to_equations; lia).
    replace (x / 10 mod 10) with 0 by (Z.div_mod_to_equations; lia).
    reflexivity.
  - destruct (fuel_enough x 3) as [n ->]; [cbn; lia|lia|].
    change (Z.to_nat 3) with 3%nat. cbn [Nat.add].
    rewrite decimal_more by lia.
    rewrite decimal_last by (Z.div_mod_to_equations; lia).
    cbn [String.length Nat.sub zeros].
    replace (x / 1000) with 0 by (Z.div_mod_to_equations; lia).
    replace (x / 100 mod 10) with 0 by (Z.div_mod_to_equations; lia).
    reflexivity.
  - destruct (fuel_enough x 6) as [n ->]; [cbn; lia|lia|].
    change (Z.to_nat 6) with 6%nat. cbn [Nat.add].
    rewrite !decimal_more by (Z.div_mod_to_equations; lia).
    rewrite decimal_last by (Z.div_mod_to_equations; lia).
    cbn [String.length Nat.sub zeros].
    replace (x / 1000) with 0 by (Z.div_mod_to_equations; lia).
    replace (x / 10 / 10 mod 10) with (x / 100 mod 10) by (Z.div_mod_to_equations; lia).
    reflexivity.
  - destruct (fuel_enough x 9) as [n ->]; [cbn; lia|lia|].
    change (Z.to_nat 9) with 9%nat. cbn [Nat.add].
    rewrite !decimal_more by (Z.div_mod_to_equations; lia).
    rewrite decimal_last by (Z.div_mod_to_equations; lia).
    cbn [String.length Nat.sub zeros].
    replace (x / 10 / 10 / 10 mod 10) with (x / 1000) by (Z.div_mod_to_equations; lia).
    replace (x / 10 / 10 mod 10) with (x / 100 mod 10) by (Z.div_mod_to_equations; lia).
    reflexivity.
Qed.

Lemma digitChar_digit d :
  0 <= d <= 9 -> isDigit (digitChar d) = true /\ digitVal (digitChar d) = d.
Proof.
  intros Hd.
  assert (d = 0 \/ d = 1 \/ d = 2 \/ d = 3 \/ d = 4 \/ d = 5 \/ d = 6 \/ d = 7 \/ d = 8 \/ d = 9)
    as C by lia.
  destruct C as [->|[->|[->|[->|[->|[->|[->|[->|[->| ->]]]]]]]]]; split; reflexivity.
Qed.

Lemma append_cons a s r : String a s +:+ r = String a (s +:+ r).
Proof. reflexivity. Qed.

Lemma append_nil r : "" +:+ r = r.
Proof. reflexivity. Qed.

Lemma getnum_two x rest fixed :
  0 <= x < 100 -> getnum (two x +:+ rest) fixed = Some (x, rest).
Proof.
  intros Hx. unfold two, getnum. rewrite !append_cons, append_nil.
  destruct (digitChar_digit (x / 10)) as [-> ->]; [Z.div_mod_to_equations; lia|].
  destruct (digitChar_digit (x mod 10)) as [-> ->]; [Z.div_mod_to_equations; lia|].
  f_equal. f_equal. Z.div_mod_to_equations; lia.
Qed.

Lemma longYear_four x rest :
  0 <= x < 10000 -> longYear (four x +:+ rest) = Some (x, rest).
Proof.
  intros Hx. unfold four, longYear. rewrite !append_cons, append_nil.
  cbn [digits].
  destruct (digitChar_digit (x / 1000)) as [-> ->]; [Z.div_mod_to_equations; lia|].
  destruct (digitChar_digit (x / 100 mod 10)) as [-> ->]; [Z.div_mod_to_equations; lia|].
  destruct (digitChar_digit (x / 10 mod 10)) as [-> ->]; [Z.div_mod_to_equations; lia|].
  destruct (digitChar_digit (x mod 10)) as [-> ->]; [Z.div_mod_to_equations; lia|].
  cbn. f_equal. f_equal. Z.div_mod_to_equations; lia.
Qed.

Lemma cutspace_digit c s : isDigit c = true -> cutspace (String c s) = String c s.
Proof.
  destruct c as [[] [] [] [] [] [] [] []]; try discriminate; reflexivity.
Qed.

Lemma cutspace_blank s : cutspace (String " " s) = cutspace s.
Proof. reflexivity. Qed.

Lemma skipSpace_two x rest :
  0 <= x < 100 -> skipSpace (" " +:+ two x +:+ rest) = Some (two x +:+ rest).
Proof.
  intros Hx. unfold two. rewrite !append_cons, !append_nil.
  unfold skipSpace. change (Ascii.eqb " " " ") with true. cbv iota.
  rewrite cutspace_blank.
  rewrite cutspace_digit; [reflexivity|].
  apply digitChar_digit. Z.div_mod_to_equations; lia.
Qed.

Lemma Parse_Format t :
  valid t ->
  Parse (Format t) =
    Some (mkTime (year t) (month t) (day t) (hour t) (minute t) (second t) 0).
Proof.
  intros (Hy & Hm & Hd & Hh & Hmi & Hs).
  assert (day t <= 31) as Hd'.
  { unfold daysIn in Hd. repeat case_match; lia. }
  unfold Format.
  rewrite appendInt_four by lia. rewrite !appendInt_two by lia.
  unfold Parse.
  rewrite longYear_four by lia. cbn [mbind option_bind].
  change (skipByte "-" ("-" +:+ ?s)) with (Some s). cbn [mbind option_bind].
  rewrite getnum_two by lia. cbn [mbind option_bind].
  rewrite option_guard_True by lia. cbn [mbind option_bind].
  change (skipByte "-" ("-" +:+ ?s)) with (Some s). cbn [mbind option_bind].
  rewrite getnum_two by lia. cbn [mbind option_bind].
  rewrite skipSpace_two by lia. cbn [mbind option_bind].
  rewrite getnum_two by lia. cbn [mbind option_bind].
  rewrite option_guard_True by lia. cbn [mbind option_bind].
  change (skipByte ":" (":" +:+ ?s)) with (Some s). cbn [mbind option_bind].
  rewrite getnum_two by lia. cbn [mbind option_bind].
  rewrite option_guard_True by lia. cbn [mbind option_bind].
  change (skipByte ":" (":" +:+ ?s)) with (Some s). cbn [mbind option_bind].
  replace (two (second t)) with (two (second t) +:+ "").
  2:{ unfold two. reflexivity. }
  rewrite getnum_two by lia. cbn [mbind option_bind].
  rewrite option_guard_True by lia. cbn [mbind option_bind fraction].
  rewrite option_guard_True by done. cbn [mbind option_bind].
  rewrite option_guard_True by lia. reflexivity.
Qed.

Lemma daysIn_ge m y : 28 <= daysIn m y <= 31.
Proof. unfold daysIn. repeat case_match; lia. Qed.

Lemma AddSecond_valid t :
  valid t -> year (AddSecond t) <= 9999 -> valid (AddSecond t).
Proof.
  intros (Hy & Hm & Hd & Hh & Hmi & Hs). unfold AddSecond, valid.
  repeat case_match; cbn [year month day hour minute second];
    repeat match goal with
      | H : (_ <? _) = true |- _ => apply Z.ltb_lt in H
      | H : (_ <? _) = false |- _ => apply Z.ltb_ge in H
      end;
    intros Hy';
    pose proof (daysIn_ge (month t) (year t));
    pose proof (daysIn_ge (month t + 1) (year t));
    pose proof (daysIn_ge 1 (year t + 1));
    lia.
Qed.

Lemma AddSecond_year t :
  valid t -> year (AddSecond t) <= 9999 \/
             exists ns, AddSecond t = mkTime 10000 1 1 0 0 0 ns.
Proof.
  intros (Hy & Hm & Hd & Hh & Hmi & Hs). unfold AddSecond.
  repeat case_match; cbn [year]; try (left; lia).
  destruct (Z.eq_dec (year t) 9999) as [E|E]; [|left; lia].
  right. exists (nsec t). rewrite E. reflexivity.
Qed.

Lemma Unix_whole u :
  Unix (mkTime (year u) (month u) (day u) (hour u) (minute u) (second u) 0) = Unix u.
Proof. reflexivity. Qed.

Lemma Parse_year_10000 ns : Parse (Format (mkTime 10000 1 1 0 0 0 ns)) = None.
Proof. vm_compute. reflexivity. Qed.

Lemma Format_AddSecond_fresh T t : Parse T = Some t -> Format (AddSecond t) <> T.
Proof.
  intros HT E. pose proof (Parse_valid _ _ HT) as V.
  destruct (AddSecond_year t V) as [Hy | [ns Hu]].
  - pose proof (Parse_Format _ (AddSecond_valid t V Hy)) as R.
    rewrite E, HT in R. injection R as R.
    pose proof (Unix_AddSecond t V) as U.
    pose proof (Unix_whole (AddSecond t)) as W.
    rewrite <- R in W. lia.
  - pose proof (Parse_year_10000 ns) as N.
    rewrite <- Hu, E, HT in N. discriminate.
Qed.

End time_facts.

(** ** The reader: de-duplication, the cursor, the poll guard *)

Module snow_facts.
Import snow.

Lemma toSet_acc (ids : list string) (m : gmap string bool) (x : string) :
  foldl (fun m id => <[id := true]> m) m ids !! x =
    if decide (x ∈ ids) then Some true else m !! x.
Proof.
  revert m. induction ids as [|i ids IH]; intros m; cbn [foldl].
  - rewrite decide_False by apply not_elem_of_nil. reflexivity.
  - rewrite IH. destruct (decide (x ∈ ids)) as [Hin|Hin].
    + rewrite decide_True by (apply elem_of_cons; auto). reflexivity.
    + destruct (decide (x = i)) as [->|Hne].
      * rewrite decide_True by (apply elem_of_cons; auto).
        apply lookup_insert_eq.
      * rewrite decide_False by (rewrite elem_of_cons; tauto).
        apply lookup_insert_ne. congruence.
Qed.

Lemma toSet_lookup (ids : list string) (x : string) :
  toSet ids !! x = if decide (x ∈ ids) then Some true else None.
Proof. unfold toSet. rewrite toSet_acc, lookup_empty. reflexivity. Qed.

Lemma doRemoveRecords_filter snow ck (records : list value) :
  doRemoveRecords snow records (toSet (LastTimeRecords ck)) (NextRecordTime ck) =
    filter (fun x => kept (additional snow timestampFieldKey) ck x) records.
Proof.
  unfold doRemoveRecords.
  match goal with |- snd (foldl ?f _ _) = _ => set (step := f) end.
  enough (forall acc, snd (foldl step acc records) =
            snd acc ++ filter (fun x => kept (additional snow timestampFieldKey) ck x) records)
    as G by (rewrite G; reflexivity).
  induction records as [|x records IH]; intros [removed indexed]; cbn [foldl].
  - cbn. rewrite app_nil_r. reflexivity.
  - rewrite IH. unfold step at 1. cbn [snd].
    destruct (kept (additional snow timestampFieldKey) ck x) eqn:K.
    + rewrite filter_cons_True by (rewrite K; exact I).
      destruct x as [| | | | |r]; try discriminate K.
      unfold kept, duplicate in K. rewrite toSet_lookup.
      destruct (eqString _ _); cbn [andb negb snd] in *;
        [|rewrite <- app_assoc; reflexivity].
      rewrite decide_False by (intros Hin; rewrite bool_decide_eq_true_2 in K by exact Hin;
                               discriminate K).
      cbn [snd]. rewrite <- app_assoc. reflexivity.
    + rewrite filter_cons_False by (rewrite K; exact id).
      destruct x as [| | | | |r]; try reflexivity.
      unfold kept, duplicate in K. rewrite toSet_lookup.
      destruct (eqString _ _); cbn [andb negb snd] in *; [|discriminate K].
      rewrite decide_True; [reflexivity|].
      apply negb_false_iff, bool_decide_eq_true in K. exact K.
Qed.

Lemma filter_kept_objects tf ck (page : list (gmap string value)) :
  filter (fun x => kept tf ck x) (VObj <$> page) =
    VObj <$> filter (fun r => negb (duplicate tf ck r)) page.
Proof.
  induction page as [|r page IH]; [reflexivity|].
  rewrite fmap_cons, !filter_cons, IH. cbn [kept].
  destruct (decide (negb (duplicate tf ck r))); reflexivity.
Qed.

Lemma eqString_spec v s : eqString v s = true <-> v = VStr s.
Proof.
  destruct v; cbn; try (split; [discriminate|congruence]).
  rewrite String.eqb_eq. split; congruence.
Qed.

(** C3. Dedup partition: the records [doRemoveRecords] returns for emission
    are the page records minus those whose timestamp equals the checkpoint's
    NextRecordTime and whose ID is listed in LastTimeRecords; a record with
    another timestamp is always kept, the page order is preserved, and no
    record at the checkpoint's timestamp whose ID is listed is emitted
    again.  It holds for every checkpoint and page, so for the non-empty
    ones the claim speaks of. *)
Theorem dedup_partition (snow : SnowDataReader) (ck : collectionState)
    (page : list (gmap string value)) :
  let timefield := additional snow timestampFieldKey in
  let toEmit :=
    doRemoveRecords snow (VObj <$> page)
      (toSet (LastTimeRecords ck)) (NextRecordTime ck) in
  toEmit = VObj <$> filter (fun r => negb (duplicate timefield ck r)) page
  /\ (forall r, r ∈ page -> field r timefield <> VStr (NextRecordTime ck) ->
        VObj r ∈ toEmit)
  /\ sublist toEmit (VObj <$> page)
  /\ (forall r, VObj r ∈ toEmit -> field r timefield = VStr (NextRecordTime ck) ->
        stringOrZero (field r "sys_id") ∉ LastTimeRecords ck).
Proof.
  intros timefield toEmit.
  assert (toEmit = VObj <$> filter (fun r => negb (duplicate timefield ck r)) page) as E.
  { unfold toEmit. rewrite doRemoveRecords_filter. apply filter_kept_objects. }
  split; [exact E|]. rewrite E. split; [|split].
  - intros r Hr Hne. apply list_elem_of_fmap_2, list_elem_of_filter.
    split; [|exact Hr]. unfold duplicate.
    destruct (eqString (field r timefield) (NextRecordTime ck)) eqn:Q; [|done].
    apply eqString_spec in Q. contradiction.
  - apply fmap_sublist, sublist_filter.
  - intros r Hr Hts Hin.
    apply list_elem_of_fmap in Hr as (r' & [= <-] & Hr).
    apply list_elem_of_filter in Hr as [Hk _]. unfold duplicate in Hk.
    apply eqString_spec in Hts. rewrite Hts in Hk.
    rewrite bool_decide_eq_true_2 in Hk by exact Hin. exact Hk.
Qed.


(** *** Stepping through the reader's methods *)

Lemma bind_run {A B} (m : M A) (f : A -> M B) snow :
  (m ≫= f) snow =
    match m snow with
    | (Done a, snow') => f a snow'
    | (Panic w, snow') => (Panic w, snow')
    end.
Proof. reflexivity. Qed.

Lemma ret_run {A} (a : A) snow : (mret a : M A) snow = (Done a, snow).
Proof. reflexivity. Qed.

Lemma with_state_same snow : with_state snow (state snow) = snow.
Proof. destruct snow; reflexivity. Qed.

Lemma with_checkpoint_same snow : with_checkpoint snow (checkpoint snow) = snow.
Proof. destruct snow; reflexivity. Qed.

Lemma getCheckpoint_cached snow :
  NextRecordTime (state snow) <> "" ->
  getCheckpoint snow = (Done (Some (state snow)), snow).
Proof.
  intros H. unfold getCheckpoint.
  destruct (String.eqb_spec (NextRecordTime (state snow)) ""); [contradiction|reflexivity].
Qed.

Lemma getCheckpoint_Some snow ck snow1 :
  getCheckpoint snow = (Done (Some ck), snow1) ->
  snow1 = with_state snow ck /\ state snow1 = ck.
Proof.
  unfold getCheckpoint. intros H.
  repeat case_match; simplify_eq; try (split; [|reflexivity]).
  - symmetry. apply with_state_same.
  - reflexivity.
Qed.

Lemma getCheckpoint_None snow snow1 :
  getCheckpoint snow = (Done None, snow1) -> snow1 = snow.
Proof.
  unfold getCheckpoint. intros H. repeat case_match; simplify_eq; reflexivity.
Qed.

Lemma getCheckpoint_returns snow : exists o, fst (getCheckpoint snow) = Done o.
Proof. unfold getCheckpoint. repeat case_match; cbn; eauto. Qed.

Lemma Parse_empty : time.Parse "" = None.
Proof. reflexivity. Qed.

Lemma length_head_last {A} (l : list A) x y :
  head l = Some x -> last l = Some y -> (length l =? 0)%nat = false.
Proof. destruct l; [discriminate|reflexivity]. Qed.

(** C1 (as amended). Tie-saturation progress: when the checkpoint has
    LastTimeRecords, its NextRecordTime is the timestamp T that the first
    and last record of the page share, T parses under the template and the
    page has exactly RecordCount entries, removeCollectedRecords reports
    refreshed = true, leaves the de-duplicated records, sets NextRecordTime
    to T plus one second and clears LastTimeRecords; the new cursor denotes
    the instant one second later and is never the text T again. *)
Theorem tie_saturation_progress (snow : SnowDataReader) (records : list value)
    (first lastRecord : gmap string value) (T : string) (t : time.Time) :
  let timefield := additional snow timestampFieldKey in
  NextRecordTime (state snow) = T ->
  LastTimeRecords (state snow) <> [] ->
  time.Parse T = Some t ->
  Z.of_nat (length records) = fst (strconv.Atoi (additional snow recordCountKey)) ->
  head records = Some (VObj first) ->
  last records = Some (VObj lastRecord) ->
  field first timefield = VStr T ->
  field lastRecord timefield = VStr T ->
  removeCollectedRecords records snow =
    (Done (doRemoveRecords snow records (toSet (LastTimeRecords (state snow))) T, true),
     with_state snow
       (mkState (Version (state snow)) (time.Format (time.AddSecond t)) []))
  /\ time.Unix (time.AddSecond t) = time.Unix t + 1
  /\ time.Format (time.AddSecond t) <> T.
Proof.
  intros timefield HT Hltr Hparse Hlen Hhead Hlast Hf Hl.
  split; [|split].
  - unfold removeCollectedRecords. rewrite bind_run.
    rewrite getCheckpoint_cached.
    2:{ rewrite HT. intros ->. rewrite Parse_empty in Hparse. discriminate. }
    destruct (LastTimeRecords (state snow)) as [|i ltr] eqn:Eltr; [contradiction|].
    cbn [length Nat.eqb orb].
    rewrite (length_head_last _ _ _ Hhead Hlast).
    rewrite bind_run. unfold gets at 1. cbn [id].
    rewrite Hlen, Z.eqb_refl.
    rewrite Hhead, Hlast. cbn [default]. rewrite bind_run.
    unfold lift at 1, id. cbn [assertObject]. rewrite bind_run.
    unfold lift at 1. cbn [assertObject]. rewrite bind_run.
    unfold lift at 1. fold timefield. rewrite Hf, Hl. cbn [ifaceEq].
    rewrite String.eqb_refl, HT, Hparse. rewrite bind_run. reflexivity.
  - apply time_facts.Unix_AddSecond. eapply time_facts.Parse_valid; eassumption.
  - apply time_facts.Format_AddSecond_fresh. assumption.
Qed.


Ltac run :=
  repeat first
    [ rewrite bind_run
    | rewrite ret_run
    | progress (unfold lift, gets, modify, id)
    | progress (cbn [assertObject assertString default fst snd]) ].

Lemma getCheckpoint_stable snow ck snow1 snow2 :
  getCheckpoint snow = (Done (Some ck), snow1) ->
  checkpoint snow2 = checkpoint snow ->
  state snow2 = state snow1 ->
  getCheckpoint snow2 = (Done (Some ck), snow2).
Proof.
  intros H Hck Hst.
  pose proof (getCheckpoint_Some _ _ _ H) as [_ E]. rewrite E in Hst.
  revert H. unfold getCheckpoint. rewrite Hst, Hck.
  destruct (String.eqb_spec (NextRecordTime ck) "") as [E0|E0]; cbn [negb].
  - destruct (String.eqb_spec (NextRecordTime (state snow)) "") as [E1|E1]; cbn [negb].
    + destruct (GetCheckpoint (checkpoint snow)) as [[p|] [e|]]; try discriminate.
      destruct (json_Unmarshal p) as [st|]; [|discriminate].
      intros [= -> <-]. rewrite <- Hst at 2. rewrite <- Hst, with_state_same.
      rewrite Hst. reflexivity.
    + intros [= <- <-]. contradiction.
  - intros _. rewrite <- Hst. reflexivity.
Qed.

Lemma getNextRecordTime_Some snow ck snow1 :
  getCheckpoint snow = (Done (Some ck), snow1) ->
  getNextRecordTime snow =
    (Done (gostrings.ReplaceFirst (NextRecordTime ck) " " "+"), snow1).
Proof.
  intros H. unfold getNextRecordTime. rewrite bind_run, H. run.
  apply getCheckpoint_Some in H as [_ ->]. reflexivity.
Qed.

Lemma getURL_Some snow ck snow1 :
  getCheckpoint snow = (Done (Some ck), snow1) ->
  getURL snow =
    (Done (urlFor snow (gostrings.ReplaceFirst (NextRecordTime ck) " " "+")), snow1).
Proof.
  intros H. unfold getURL. rewrite bind_run, (getNextRecordTime_Some _ _ _ H). run.
  apply getCheckpoint_Some in H as [-> _]. reflexivity.
Qed.

Lemma getCheckpoint_with_collecting snow c :
  getCheckpoint (with_collecting snow c) =
    (fst (getCheckpoint snow), with_collecting (snd (getCheckpoint snow)) c).
Proof.
  unfold getCheckpoint. destruct snow; cbn.
  repeat case_match; reflexivity.
Qed.

(** The URL a poll asks for and the reader it leaves, when the checkpoint
    the poll reads is [ck]. *)
Lemma CollectData_fetched snow ck snow1 b :
  collecting snow = 0 ->
  getCheckpoint snow = (Done (Some ck), snow1) ->
  let url := urlFor snow (gostrings.ReplaceFirst (NextRecordTime ck) " " "+") in
  respond (http_client snow) url = Fetched b ->
  CollectData snow =
    (Done (Some b, None),
     with_http snow1 (mkHttp (respond (http_client snow))
                             (requested (http_client snow) ++ [url]))).
Proof.
  intros Hc H url Hresp.
  assert (getCheckpoint (with_collecting snow 1) =
            (Done (Some ck), with_collecting snow1 1)) as H1.
  { rewrite getCheckpoint_with_collecting, H. reflexivity. }
  unfold CollectData, CompareAndSwapCollecting. rewrite bind_run, Hc. cbn [Z.eqb negb].
  unfold defer, doRequest. rewrite bind_run, (getURL_Some _ _ _ H1). run.
  apply getCheckpoint_Some in H as [-> _].
  destruct snow; cbn in *. subst url. cbn in Hresp.
  unfold urlFor, additional in *. cbn in *. rewrite Hresp. run. cbn. subst. reflexivity.
Qed.


Lemma removeCollectedRecords_parse_failure snow ck records first lastRecord :
  let timefield := additional snow timestampFieldKey in
  getCheckpoint snow = (Done (Some ck), snow) ->
  LastTimeRecords ck <> [] ->
  time.Parse (NextRecordTime ck) = None ->
  Z.of_nat (length records) = fst (strconv.Atoi (additional snow recordCountKey)) ->
  head records = Some (VObj first) ->
  last records = Some (VObj lastRecord) ->
  ifaceEq (field first timefield) (field lastRecord timefield) = Done true ->
  removeCollectedRecords records snow = (Done ([], false), snow).
Proof.
  intros timefield Hck Hltr Hparse Hlen Hhead Hlast Hsame.
  unfold removeCollectedRecords. rewrite bind_run, Hck.
  destruct (LastTimeRecords ck) as [|i ltr] eqn:Eltr; [contradiction|].
  cbn [length Nat.eqb orb]. rewrite (length_head_last _ _ _ Hhead Hlast).
  run. rewrite Hlen, Z.eqb_refl, Hhead, Hlast. run.
  fold timefield. rewrite Hsame. run. rewrite Hparse. reflexivity.
Qed.

Lemma getCheckpoint_keeps snow :
  checkpoint (snd (getCheckpoint snow)) = checkpoint snow
  /\ writer (snd (getCheckpoint snow)) = writer snow
  /\ config (snd (getCheckpoint snow)) = config snow.
Proof. unfold getCheckpoint. destruct snow; cbn. repeat case_match; cbn; auto. Qed.

Lemma getNextRecordTime_after_getCheckpoint snow :
  fst (getNextRecordTime (snd (getCheckpoint snow))) = fst (getNextRecordTime snow).
Proof.
  destruct (getCheckpoint snow) as [[[ck|]|w] s1] eqn:H; cbn [snd].
  - rewrite (getNextRecordTime_Some _ _ _ H).
    erewrite getNextRecordTime_Some; [reflexivity|].
    eapply getCheckpoint_stable; [exact H| |reflexivity].
    pose proof (getCheckpoint_keeps snow) as [K _]. rewrite H in K. exact K.
  - apply getCheckpoint_None in H as ->. reflexivity.
  - destruct (getCheckpoint_returns snow) as [o Ho]. rewrite H in Ho. discriminate.
Qed.

(** When [removeCollectedRecords] does not report a refresh, the reader it
    leaves is the one [getCheckpoint] left. *)
Lemma removeCollectedRecords_not_refreshed snow records toEmit snow1 :
  removeCollectedRecords records snow = (Done (toEmit, false), snow1) ->
  snow1 = snd (getCheckpoint snow).
Proof.
  unfold removeCollectedRecords. rewrite bind_run.
  destruct (getCheckpoint snow) as [[[ck|]|w] s1]; cbn [snd]; [| |discriminate].
  - destruct (_ || _); [intros [= _ <-]; reflexivity|].
    run. destruct (_ =? _); [|intros [= _ <-]; reflexivity].
    destruct (head records) as [[]|], (last records) as [[]|]; run; try discriminate.
    destruct (ifaceEq _ _) as [[]|]; run; [| |discriminate].
    + destruct (time.Parse _); run; [discriminate|]. intros [= _ <-]. reflexivity.
    + intros [= _ <-]. reflexivity.
  - intros [= _ <-]. reflexivity.
Qed.

Lemma writeCheckpoint_write_fails snow records refreshed e :
  writeError (checkpoint snow) = Some e ->
  snd (writeCheckpoint records refreshed snow) = snow
  /\ (fst (writeCheckpoint records refreshed snow) = Done (Some e)
      \/ (records = [] /\ fst (writeCheckpoint records refreshed snow) = Done None)
      \/ exists why, fst (writeCheckpoint records refreshed snow) = Panic why).
Proof.
  intros He. unfold writeCheckpoint.
  destruct records as [|x records]; [cbn; auto|].
  cbn [length Nat.eqb]. run.
  destruct (scanMaxTimestamp _ _ _ _) as [ids|w]; [|cbn; eauto].
  destruct (assertString _) as [nrt|w]; [|cbn; eauto].
  unfold WriteCheckpoint. rewrite He. run.
  rewrite with_checkpoint_same. cbn. auto.
Qed.

(** C5 (as amended). When the durable write fails, writeCheckpoint
    leaves the reader, durable blob and in-memory state alike, exactly as
    it received it, and returns the error unless it had no records or
    panicked before writing; after a cycle whose removeCollectedRecords did
    not refresh, the durable blob and the cursor of the next poll are those
    of before the cycle. *)
Theorem failed_checkpoint_write (snow : SnowDataReader) (e : error) :
  writeError (checkpoint snow) = Some e ->
  (forall records refreshed,
     snd (writeCheckpoint records refreshed snow) = snow
     /\ (fst (writeCheckpoint records refreshed snow) = Done (Some e)
         \/ (records = [] /\ fst (writeCheckpoint records refreshed snow) = Done None)
         \/ exists why, fst (writeCheckpoint records refreshed snow) = Panic why))
  /\ (forall snow0 page toEmit,
        removeCollectedRecords page snow0 = (Done (toEmit, false), snow) ->
        let snow' := snd (writeCheckpoint toEmit false snow) in
        checkpoint snow' = checkpoint snow0
        /\ fst (getNextRecordTime snow') = fst (getNextRecordTime snow0)).
Proof.
  intros He. split.
  - intros records refreshed. apply writeCheckpoint_write_fails. exact He.
  - intros snow0 page toEmit Hrm snow'. subst snow'.
    destruct (writeCheckpoint_write_fails snow toEmit false e He) as [-> _].
    apply removeCollectedRecords_not_refreshed in Hrm as ->. split.
    + apply getCheckpoint_keeps.
    + apply getNextRecordTime_after_getCheckpoint.
Qed.

Lemma digits_not_allDigits s acc :
  strconv.allDigits s = false -> strconv.digits acc s = None.
Proof.
  revert acc. induction s as [|c s IH]; intros acc; cbn; [discriminate|].
  destruct (strconv.isDigit c); cbn; [apply IH|reflexivity].
Qed.

Lemma Atoi_non_numeric s : strconv.isNumeric s = false -> strconv.Atoi s = (0, false).
Proof.
  unfold strconv.isNumeric, strconv.Atoi.
  set (body := match s with
               | String "-" rest => rest | String "+" rest => rest | _ => s end).
  assert ((let '(neg, b) := match s with
              | String "-" rest => (true, rest)
              | String "+" rest => (false, rest)
              | _ => (false, s) end in b) = body) as E.
  { subst body. destruct s as [|c s]; [reflexivity|].
    destruct c as [[] [] [] [] [] [] [] []]; reflexivity. }
  destruct (match s with
            | String "-" rest => (true, rest)
            | String "+" rest => (false, rest)
            | _ => (false, s) end) as [neg b].
  subst b. intros H.
  destruct body as [|c b']; [reflexivity|].
  cbn [String.eqb negb andb] in H.
  replace (negb (String.eqb (String c b') "")) with true in H by reflexivity.
  cbn [andb] in H. rewrite (digits_not_allDigits _ _ H). reflexivity.
Qed.

Lemma getCheckpoint_frame snow :
  exists o st, getCheckpoint snow = (Done o, with_state snow st).
Proof.
  unfold getCheckpoint.
  destruct (negb _); [exists (Some (state snow)), (state snow); now rewrite with_state_same|].
  destruct (GetCheckpoint (checkpoint snow)) as [[p|] [e|]];
    try (exists None, (state snow); now rewrite with_state_same).
  destruct (json_Unmarshal p) as [st|]; [eauto|].
  exists None, (state snow); now rewrite with_state_same.
Qed.

Lemma getURL_frame snow :
  exists u st, getURL snow = (Done u, with_state snow st).
Proof.
  unfold getURL, getNextRecordTime. rewrite !bind_run.
  destruct (getCheckpoint_frame snow) as (o & st & ->).
  destruct o; run; destruct snow; cbn; eauto.
Qed.

Lemma getURL_keeps snow :
  http_client (snd (getURL snow)) = http_client snow
  /\ collecting (snd (getURL snow)) = collecting snow
  /\ exists u, fst (getURL snow) = Done u.
Proof.
  destruct (getURL_frame snow) as (u & st & ->). destruct snow; cbn. eauto.
Qed.

Lemma doRequest_keeps_guard snow : collecting (snd (doRequest snow)) = collecting snow.
Proof.
  unfold doRequest. rewrite bind_run.
  pose proof (getURL_keeps snow) as (Hh & Hc & u & Hu).
  destruct (getURL snow) as [[u'|w] s1]; cbn in *; [|discriminate]. run.
  destruct (respond (http_client s1) u'); run; cbn; destruct s1; cbn in *; congruence.
Qed.

(** C6. A poll arriving while the collecting guard is held makes no request
    and returns nil data and a nil error, leaving the guard as it is; an
    invocation that finds the guard free takes it, runs the request with the
    guard held and releases it when it is done; so a request on the wire
    means the invocation found the guard free. *)
Theorem at_most_one_poll (snow : SnowDataReader) :
  (collecting snow <> 0 ->
     fst (CollectData snow) = Done (None, None)
     /\ requested (http_client (snd (CollectData snow))) = requested (http_client snow)
     /\ collecting (snd (CollectData snow)) = collecting snow)
  /\ (collecting snow = 0 ->
       CollectData snow =
         (fst (doRequest (with_collecting snow 1)),
          with_collecting (snd (doRequest (with_collecting snow 1))) 0)
       /\ collecting (snd (doRequest (with_collecting snow 1))) = 1
       /\ collecting (snd (CollectData snow)) = 0)
  /\ (requested (http_client (snd (CollectData snow))) <> requested (http_client snow) ->
       collecting snow = 0).
Proof.
  assert (collecting snow <> 0 ->
     fst (CollectData snow) = Done (None, None)
     /\ requested (http_client (snd (CollectData snow))) = requested (http_client snow)
     /\ collecting (snd (CollectData snow)) = collecting snow) as Held.
  { intros Hc. unfold CollectData, CompareAndSwapCollecting. rewrite bind_run.
    destruct (Z.eqb_spec (collecting snow) 0) as [E|_]; [contradiction|].
    cbn [negb]. rewrite bind_run.
    pose proof (getURL_keeps snow) as (Hh & Hg & u & Hu).
    destruct (getURL snow) as [[u'|w] s1]; cbn in *; [|discriminate].
    rewrite Hh. auto. }
  split; [exact Held|]. split.
  - intros Hc. unfold CollectData, CompareAndSwapCollecting. rewrite bind_run, Hc.
    cbn [Z.eqb negb]. unfold defer.
    pose proof (doRequest_keeps_guard (with_collecting snow 1)) as G.
    destruct (doRequest (with_collecting snow 1)) as [r s1]. cbn [fst snd] in *.
    split; [reflexivity|]. split; [|destruct s1; reflexivity].
    rewrite G. destruct snow; reflexivity.
  - intros Hreq. destruct (Z.eq_dec (collecting snow) 0) as [E|E]; [exact E|].
    destruct (Held E) as (_ & Hsame & _). contradiction.
Qed.

Lemma kept_malformed snow ck (r : gmap string value) :
  let timefield := additional snow timestampFieldKey in
  r !! timefield = None \/ (r !! "sys_id" = None /\ "" ∉ LastTimeRecords ck) ->
  kept timefield ck (VObj r) = true.
Proof.
  intros timefield H. unfold kept, duplicate, field. apply negb_true_iff.
  destruct H as [H|[H Hn]]; rewrite H; cbn.
  - reflexivity.
  - rewrite bool_decide_eq_false_2 by exact Hn. apply andb_false_r.
Qed.

(** The loop of [doRemoveRecords] reads [sys_id] with the comma-ok form
    and compares the timestamp without asserting its type: a record
    without the timestamp field, or without the ID field when the empty
    string is not listed in LastTimeRecords, is kept in its place while the
    records before and after it are handled as they would be without it; a
    page entry that is not an object is dropped by this loop. *)
Lemma malformed_record_is_kept (snow : SnowDataReader) (ck : collectionState)
    (before after : list value) :
  let timefield := additional snow timestampFieldKey in
  let dedup records :=
    doRemoveRecords snow records (toSet (LastTimeRecords ck)) (NextRecordTime ck) in
  (forall r : gmap string value,
     r !! timefield = None \/ (r !! "sys_id" = None /\ "" ∉ LastTimeRecords ck) ->
     dedup (before ++ VObj r :: after) = dedup before ++ VObj r :: dedup after)
  /\ (forall x, (forall r, x <> VObj r) ->
        dedup (before ++ x :: after) = dedup before ++ dedup after).
Proof.
  intros timefield dedup. subst dedup. cbv beta. split.
  - intros r H. rewrite !doRemoveRecords_filter, filter_app, filter_cons_True; [reflexivity|].
    rewrite (kept_malformed snow ck r H). exact I.
  - intros x Hx. rewrite !doRemoveRecords_filter, filter_app, filter_cons_False; [reflexivity|].
    destruct x; cbn; try exact id. exfalso. eapply Hx. reflexivity.
Qed.

Lemma NewSnowDataReader_None cfg w c net :
  NewSnowDataReader cfg w c net = None <->
    (AdditionalConfig cfg !! endpointKey = None
     \/ AdditionalConfig cfg !! timestampFieldKey = None
     \/ AdditionalConfig cfg !! nextRecordTimeKey = None).
Proof.
  unfold NewSnowDataReader. cbn [forallb].
  destruct (AdditionalConfig cfg !! endpointKey) as [e|] eqn:E1,
           (AdditionalConfig cfg !! timestampFieldKey) as [t|] eqn:E2,
           (AdditionalConfig cfg !! nextRecordTimeKey) as [n|] eqn:E3;
    cbn; split; intros H; try discriminate; auto;
    destruct H as [H|[H|H]]; discriminate.
Qed.

Lemma removeCollectedRecords_zero_limit snow records :
  fst (strconv.Atoi (additional snow recordCountKey)) = 0 ->
  exists toEmit,
    removeCollectedRecords records snow = (Done (toEmit, false), snd (getCheckpoint snow)).
Proof.
  intros H0. unfold removeCollectedRecords. rewrite bind_run.
  destruct (getCheckpoint_returns snow) as [o Ho].
  pose proof (getCheckpoint_keeps snow) as (_ & _ & Hcfg).
  destruct (getCheckpoint snow) as [r s1]. cbn [fst snd] in *. subst r.
  destruct o as [ck|]; [|eauto].
  destruct (length (LastTimeRecords ck) =? 0)%nat; [cbn; eauto|].
  destruct records as [|x records]; [cbn; eauto|].
  cbn [length Nat.eqb orb]. run.
  unfold additional in *. rewrite Hcfg, H0.
  destruct (Z.eqb_spec (Z.of_nat (S (length records))) 0); [lia|]. eauto.
Qed.

Section Cycle.

Variables base_ServerURL base_Username : string.

(** C4 (as amended). When the tie-saturation guard triggers in a poll
  cycle and the checkpoint's timestamp does not parse, the cycle hands
  nothing to the writer and writes no checkpoint, keeps the cursor, and
  IndexData returns nil: the failure is logged, not returned. *)
Theorem parse_failure_is_silent (snow snow1 : SnowDataReader) (ck : collectionState)
    (jobj : gmap string value) (records : list value)
    (first lastRecord : gmap string value) :
  let timefield := additional snow timestampFieldKey in
  let url := urlFor snow (gostrings.ReplaceFirst (NextRecordTime ck) " " "+") in
  collecting snow = 0 ->
  getCheckpoint snow = (Done (Some ck), snow1) ->
  respond (http_client snow) url = Fetched (JsonBody jobj) ->
  jobj !! "records" = Some (VArr records) ->
  LastTimeRecords ck <> [] ->
  Z.of_nat (length records) = fst (strconv.Atoi (additional snow recordCountKey)) ->
  head records = Some (VObj first) ->
  last records = Some (VObj lastRecord) ->
  ifaceEq (field first timefield) (field lastRecord timefield) = Done true ->
  time.Parse (NextRecordTime ck) = None ->
  exists snow',
    IndexData base_ServerURL base_Username snow = (Done None, snow')
    /\ written (writer snow') = written (writer snow)
    /\ checkpoint snow' = checkpoint snow
    /\ state snow' = ck
    /\ requested (http_client snow') = requested (http_client snow) ++ [url].
Proof.
  intros timefield url Hc Hck Hresp Hrec Hltr Hlen Hhead Hlast Hsame Hparse.
  eexists. split.
  - unfold IndexData. rewrite bind_run.
    rewrite (CollectData_fetched _ _ _ _ Hc Hck Hresp).
    cbn [ToJsonObject]. rewrite Hrec. run.
    erewrite removeCollectedRecords_parse_failure; try eassumption.
    + run. cbn [printRecords]. run. reflexivity.
    + eapply getCheckpoint_stable; [exact Hck| |];
        apply getCheckpoint_Some in Hck as [-> _]; destruct snow; reflexivity.
    + apply getCheckpoint_Some in Hck as [-> _]. destruct snow; exact Hlen.
    + apply getCheckpoint_Some in Hck as [-> _]. destruct snow; exact Hsame.
  - apply getCheckpoint_Some in Hck as [-> _]. destruct snow; cbn. auto.
Qed.

End Cycle.

Lemma append_assoc (a b c : string) : (a +:+ b) +:+ c = a +:+ (b +:+ c).
Proof.
  induction a as [|x a IH]; [reflexivity|].
  change (String x ((a +:+ b) +:+ c) = String x (a +:+ b +:+ c)).
  rewrite IH. reflexivity.
Qed.

(** C10. NewSnowDataReader gives the nil reader exactly when Endpoint,
    TimestampField or NextRecordTime is absent from the additional
    configuration; RecordCount is not checked, though the poll URL ends with
    it, and when it is absent or not numeric Atoi reads it as 0 and
    removeCollectedRecords never refreshes: it returns refreshed = false and
    leaves the reader as getCheckpoint left it. *)
Theorem record_count_is_not_validated (cfg : BaseConfig) (w : DataWriter)
    (c : Checkpointer) (net : string -> fetch) :
  (NewSnowDataReader cfg w c net = None <->
     (AdditionalConfig cfg !! endpointKey = None
      \/ AdditionalConfig cfg !! timestampFieldKey = None
      \/ AdditionalConfig cfg !! nextRecordTimeKey = None))
  /\ (forall snow, config snow = cfg ->
        (forall nextRecordTime, exists front,
           urlFor snow nextRecordTime =
             front +:+ "&sysparm_record_count=" +:+ get (AdditionalConfig cfg) recordCountKey)
        /\ (AdditionalConfig cfg !! recordCountKey = None
             \/ strconv.isNumeric (get (AdditionalConfig cfg) recordCountKey) = false ->
             strconv.Atoi (additional snow recordCountKey) = (0, false)
             /\ forall records, exists toEmit,
                  removeCollectedRecords records snow =
                    (Done (toEmit, false), snd (getCheckpoint snow)))).
Proof.
  split; [apply NewSnowDataReader_None|].
  intros snow <-. split.
  - intros nrt. unfold urlFor.
    exists (ServerURL (config snow) +:+ "/" +:+ additional snow endpointKey
              +:+ ".do?JSONv2&sysparm_query=" +:+ additional snow timestampFieldKey
              +:+ ">=" +:+ nrt +:+ "^ORDERBY" +:+ additional snow timestampFieldKey).
    rewrite !append_assoc. reflexivity.
  - intros H.
    assert (strconv.isNumeric (additional snow recordCountKey) = false) as N.
    { destruct H as [H|H]; [|exact H]. unfold additional, get. rewrite H. reflexivity. }
    pose proof (Atoi_non_numeric _ N) as A. split; [exact A|].
    intros records. apply removeCollectedRecords_zero_limit. rewrite A. reflexivity.
Qed.

(** ** The claims on concrete polls *)

Import samples.

Lemma tie_saturation_progress_witness :
  removeCollectedRecords fullPage (reader (Some "2") (mkState "1" T1 ["a"]) fullPage None) =
    (Done ([VObj (record "b" T1)], true),
     reader (Some "2") (mkState "1" T2 []) fullPage None)
  /\ time.Format (time.AddSecond (time.mkTime 2015 1 1 10 0 1 0)) <> T1.
Proof.
  destruct (tie_saturation_progress
              (reader (Some "2") (mkState "1" T1 ["a"]) fullPage None) fullPage
              (record "a" T1) (record "b" T1) T1 (time.mkTime 2015 1 1 10 0 1 0))
    as (Hrun & _ & Hfresh); try reflexivity; [discriminate|].
  split; [|exact Hfresh]. rewrite Hrun. vm_compute. reflexivity.
Defined.

Lemma tie_saturation_skipped_without_last_time_records :
  let snow := reader (Some "2") (mkState "1" T1 []) fullPage None in
  Z.of_nat (length fullPage) = fst (strconv.Atoi (additional snow recordCountKey))
  /\ field (record "a" T1) timefield = VStr T1
  /\ field (record "b" T1) timefield = VStr T1
  /\ removeCollectedRecords fullPage snow = (Done (fullPage, false), snow).
Proof. vm_compute. repeat split; reflexivity. Qed.

(** C2 (the code departs from it). With checkpoint (T1, [b; c]) and a page
    [b; c; d] all at T1, the cycle is not refreshed and emits d alone; the
    checkpoint it writes lists d only, where the IDs of the fetched page at
    its last timestamp, scanned backwards, are d, c, b; the next cycle over
    the same page then emits b and c again. *)
Theorem checkpoint_forgets_committed_ids :
  let snow := reader (Some "10") (mkState "1" T1 ["b"; "c"]) growingPage None in
  let first := IndexData "ServerURL" "Username" snow in
  let second := IndexData "ServerURL" "Username" (snd first) in
  removeCollectedRecords growingPage snow = (Done ([VObj (record "d" T1)], false), snow)
  /\ fst first = Done None
  /\ emitted (snd first) = [[NilRow; Printed (record "d" T1)]]
  /\ blob (checkpoint (snd first)) = Some (Encoded (mkState "1" T1 ["d"]))
  /\ scanMaxTimestamp timefield (VStr T1) (reverse growingPage) [] = Done ["d"; "c"; "b"]
  /\ emitted (snd second) =
       [[NilRow; Printed (record "d" T1)];
        [NilRow; NilRow; Printed (record "b" T1); Printed (record "c" T1)]].
Proof. vm_compute. repeat split; reflexivity. Qed.

(** The spec's dedup scenario: b and c are committed at T1, d is new. *)
Example dedup_scenario :
  doRemoveRecords (reader (Some "10") (mkState "1" T1 ["b"; "c"]) [] None)
    (VObj <$> dedupPage) (toSet ["b"; "c"]) T1 = [VObj (record "d" T2)].
Proof. vm_compute. reflexivity. Qed.

Lemma parse_failure_is_silent_witness :
  let snow := reader (Some "2") (mkState "1" "last tuesday" ["a"]) fullPage None in
  exists snow',
    IndexData "ServerURL" "Username" snow = (Done None, snow')
    /\ written (writer snow') = written (writer snow)
    /\ checkpoint snow' = checkpoint snow
    /\ state snow' = mkState "1" "last tuesday" ["a"]
    /\ requested (http_client snow') =
         requested (http_client snow)
           ++ [urlFor snow (gostrings.ReplaceFirst "last tuesday" " " "+")].
Proof.
  intros snow.
  apply (parse_failure_is_silent "ServerURL" "Username" snow snow
           (mkState "1" "last tuesday" ["a"]) (<["records" := VArr fullPage]> ∅)
           fullPage (record "a" T1) (record "b" T1));
    try reflexivity.
  discriminate.
Defined.

Lemma parse_failure_returns_nil :
  let snow := reader (Some "2") (mkState "1" "last tuesday" ["a"]) fullPage None in
  time.Parse (NextRecordTime (state snow)) = None
  /\ doRemoveRecords snow fullPage (toSet ["a"]) "last tuesday" = fullPage
  /\ removeCollectedRecords fullPage snow = (Done ([], false), snow)
  /\ fst (IndexData "ServerURL" "Username" snow) = Done None.
Proof. vm_compute. repeat split; reflexivity. Qed.

Lemma failed_checkpoint_write_witness :
  let snow :=
    reader (Some "10") (mkState "1" T1 ["b"; "c"]) growingPage (Some (Err "disk full")) in
  snd (writeCheckpoint [VObj (record "d" T1)] false snow) = snow
  /\ fst (writeCheckpoint [VObj (record "d" T1)] false snow) = Done (Some (Err "disk full")).
Proof.
  intros snow.
  destruct (failed_checkpoint_write snow (Err "disk full") eq_refl) as [H _].
  destruct (H [VObj (record "d" T1)] false) as [Hsnow _].
  split; [exact Hsnow|]. vm_compute. reflexivity.
Defined.

Lemma refresh_survives_failed_write :
  let snow := reader (Some "2") (mkState "1" T1 ["a"]) fullPage (Some (Err "disk full")) in
  let after := IndexData "ServerURL" "Username" snow in
  fst after = Done (Some (Err "disk full"))
  /\ state snow = mkState "1" T1 ["a"]
  /\ state (snd after) = mkState "1" T2 []
  /\ fst (getNextRecordTime snow) = Done "2015-01-01+10:00:01"
  /\ fst (getNextRecordTime (snd after)) = Done "2015-01-01+10:00:02".
Proof. vm_compute. repeat split; reflexivity. Qed.

Lemma at_most_one_poll_witness :
  let idle := reader (Some "2") (mkState "1" T1 ["a"]) fullPage None in
  let inflight := with_collecting idle 1 in
  (fst (CollectData inflight) = Done (None, None)
   /\ requested (http_client (snd (CollectData inflight))) = []
   /\ collecting (snd (CollectData inflight)) = 1)
  /\ (collecting (snd (doRequest (with_collecting idle 1))) = 1
      /\ collecting (snd (CollectData idle)) = 0).
Proof.
  intros idle inflight.
  destruct (at_most_one_poll inflight) as (Held & _ & _).
  destruct (at_most_one_poll idle) as (_ & Free & _).
  split.
  - apply Held. discriminate.
  - destruct (Free eq_refl) as (_ & Hguard & Hreleased). split; assumption.
Defined.

Lemma malformed_record_is_kept_witness :
  let snow := reader (Some "10") (mkState "1" T1 ["a"]) [] None in
  doRemoveRecords snow
    ([VObj (record "a" T1)] ++ VObj (anonymous T1) :: [VObj (record "d" T2)])
    (toSet ["a"]) T1 =
  doRemoveRecords snow [VObj (record "a" T1)] (toSet ["a"]) T1
    ++ VObj (anonymous T1) :: doRemoveRecords snow [VObj (record "d" T2)] (toSet ["a"]) T1.
Proof.
  intros snow.
  destruct (malformed_record_is_kept snow (mkState "1" T1 ["a"])
              [VObj (record "a" T1)] [VObj (record "d" T2)]) as [H _].
  apply (H (anonymous T1)). right. split; [reflexivity|].
  intros Hin. apply list_elem_of_singleton in Hin. discriminate.
Defined.

(** C7 (the code departs from it). A page whose last record lacks its
    [sys_id]: the de-duplication loop, which reads the ID with the comma-ok
    form, goes through and keeps the record; the cycle hands the rows to the
    writer, the record without ID among them; then the checkpoint
    computation, which asserts [r["sys_id"].(string)] unchecked, panics, and
    no checkpoint is stored.  This happens on the first poll and on a poll
    that de-duplicates against a checkpoint; a last record that lacks its
    timestamp ends the same way, at [lastRecord[timefield].(string)].  With
    the same first record and a complete last record the cycle returns nil
    and stores the checkpoint. *)
Theorem record_without_id_is_emitted_then_panics :
  let snow := reader (Some "10") (mkState "" "" []) pageWithAnonymous None in
  let after := IndexData "ServerURL" "Username" snow in
  let later := reader (Some "10") (mkState "1" T0 ["a"]) pageWithAnonymous None in
  let afterLater := IndexData "ServerURL" "Username" later in
  let undatedPage := [VObj (record "a" T0); VObj (undated "z")] in
  let afterUndated :=
    IndexData "ServerURL" "Username"
      (reader (Some "10") (mkState "" "" []) undatedPage None) in
  let completePage := [VObj (record "a" T0); VObj (record "z" T1)] in
  let afterComplete :=
    IndexData "ServerURL" "Username"
      (reader (Some "10") (mkState "" "" []) completePage None) in
  anonymous T1 !! "sys_id" = None
  /\ emitted (snd after) =
       [[NilRow; NilRow; Printed (record "a" T0); Printed (anonymous T1)]]
  /\ fst after = Panic "interface conversion: not string"
  /\ blob (checkpoint (snd after)) = None
  /\ removeCollectedRecords pageWithAnonymous later =
       (Done ([VObj (anonymous T1)], false), later)
  /\ emitted (snd afterLater) = [[NilRow; Printed (anonymous T1)]]
  /\ fst afterLater = Panic "interface conversion: not string"
  /\ blob (checkpoint (snd afterLater)) = None
  /\ undated "z" !! timefield = None
  /\ emitted (snd afterUndated) =
       [[NilRow; NilRow; Printed (record "a" T0); Printed (undated "z")]]
  /\ fst afterUndated = Panic "interface conversion: not string"
  /\ blob (checkpoint (snd afterUndated)) = None
  /\ fst afterComplete = Done None
  /\ emitted (snd afterComplete) =
       [[NilRow; NilRow; Printed (record "a" T0); Printed (record "z" T1)]]
  /\ blob (checkpoint (snd afterComplete)) = Some (Encoded (mkState "1" T1 ["z"])).
Proof. vm_compute. repeat split; reflexivity. Qed.

Lemma record_count_is_not_validated_witness :
  let snow := reader None (mkState "1" T1 ["a"]) fullPage None in
  NewSnowDataReader (baseConfig None) (mkWriter [] None)
    (mkCheckpointer None None None) (answering fullPage) <> None
  /\ strconv.Atoi (additional snow recordCountKey) = (0, false)
  /\ exists toEmit,
       removeCollectedRecords fullPage snow = (Done (toEmit, false), snd (getCheckpoint snow)).
Proof.
  intros snow.
  destruct (record_count_is_not_validated (baseConfig None) (mkWriter [] None)
              (mkCheckpointer None None None) (answering fullPage)) as [Hnil Hcount].
  split.
  - intros Hnone. apply Hnil in Hnone. destruct Hnone as [H|[H|H]]; discriminate H.
  - destruct (Hcount snow eq_refl) as [_ Hzero].
    destruct (Hzero (or_introl eq_refl)) as [Hatoi Hguard].
    split; [exact Hatoi|]. apply Hguard.
Defined.

End snow_facts.

(** ** The collect service: heartbeats and task dispatch *)

Module services_facts.
Import services.

Section Reporter.

Variable base : Base.
Context {Job : Type}.
Variable cs : @CollectService Job.

Lemma heartbeatLoop_running (running : list tick) :
  Forall (fun t => startedSeen t <> 0) running ->
  heartbeatLoop base cs running = (concat (map (publish base cs) running), false).
Proof.
  induction 1 as [|t running Ht _ IH]; [reflexivity|].
  cbn [heartbeatLoop map concat]. rewrite IH.
  destruct (Z.eqb_spec (startedSeen t) 0); [contradiction|reflexivity].
Qed.

Lemma heartbeatLoop_stopped (running : list tick) (stop : tick) (rest : list tick) :
  Forall (fun t => startedSeen t <> 0) running ->
  startedSeen stop = 0 ->
  heartbeatLoop base cs (running ++ stop :: rest) =
    (concat (map (publish base cs) running), true).
Proof.
  intros Hrun Hstop. induction Hrun as [|t running Ht _ IH].
  - cbn. rewrite Hstop. reflexivity.
  - cbn [app heartbeatLoop map concat]. rewrite IH.
    destruct (Z.eqb_spec (startedSeen t) 0); [contradiction|reflexivity].
Qed.

(** C8 (as amended). In event-log mode the reporter starts its own
  writer, publishes one record per active application at every tick for
  which it saw the started flag set at the loop head, and stops the writer
  when it sees the flag cleared; while the flag stays set it keeps
  running.  In coordination-service mode it writes one ephemeral,
  overwriting node per active application once and returns, whatever the
  schedule of ticks and the started flag. *)
Theorem heartbeat_cadence (running : list tick) (stop : tick) (rest : list tick)
    (timeNow : Z) (factoryApps : list string) (writerCreated : bool) :
  Forall (fun t => startedSeen t <> 0) running ->
  startedSeen stop = 0 ->
  (get (config cs) (Heartbeat base) = "kafka" ->
     doHeartbeats base cs timeNow factoryApps true (running ++ stop :: rest) =
       ([KafkaWriterStart] ++ concat (map (publish base cs) running) ++ [KafkaWriterStop],
        Returned)
     /\ doHeartbeats base cs timeNow factoryApps true running =
          ([KafkaWriterStart] ++ concat (map (publish base cs) running), Running)
     /\ Forall (fun t => length (publish base cs t) = length (apps t)) running)
  /\ (get (config cs) (Heartbeat base) <> "kafka" ->
       doHeartbeats base cs timeNow factoryApps writerCreated (running ++ stop :: rest) =
         (map (fun app =>
                 ZkCreateNode (HeartbeatRoot base +:+ "/" +:+ host cs +:+ "!" +:+ app)
                              (statsFor base cs timeNow app) true true)
              factoryApps,
          Returned)).
Proof.
  intros Hrun Hstop. split.
  - intros Hk. unfold doHeartbeats, doHeartBeatsThroughKafka.
    rewrite Hk. cbn [String.eqb negb].
    replace (String.eqb "kafka" "kafka") with true by reflexivity. cbn [negb].
    rewrite (heartbeatLoop_stopped _ _ _ Hrun Hstop), (heartbeatLoop_running _ Hrun).
    split; [reflexivity|]. split; [reflexivity|].
    apply Forall_forall. intros t _. unfold publish. apply length_map.
  - intros Hk. unfold doHeartbeats.
    destruct (String.eqb_spec (get (config cs) (Heartbeat base)) "kafka");
      [contradiction|reflexivity].
Qed.

End Reporter.

Import samples.

Lemma heartbeat_cadence_witness :
  doHeartbeats base (service "kafka") 5 ["snow"] true [beat 1 10; beat 1 20; beat 0 30] =
    ([KafkaWriterStart;
      KafkaWriteData [statsFor base (service "kafka") 10 "snow"];
      KafkaWriteData [statsFor base (service "kafka") 20 "snow"];
      KafkaWriterStop], Returned)
  /\ doHeartbeats base (service "zookeeper") 5 ["snow"] true [beat 1 10; beat 1 20; beat 0 30] =
       ([ZkCreateNode "/heartbeats/worker-1!snow"
           (statsFor base (service "zookeeper") 5 "snow") true true], Returned).
Proof.
  assert (Forall (fun t => startedSeen t <> 0) [beat 1 10; beat 1 20]) as Hrun.
  { repeat constructor; discriminate. }
  split.
  - destruct (heartbeat_cadence base (service "kafka") [beat 1 10; beat 1 20] (beat 0 30) []
                5 ["snow"] true Hrun eq_refl) as [Hkafka _].
    destruct (Hkafka eq_refl) as (Hstop & _ & _). exact Hstop.
  - destruct (heartbeat_cadence base (service "zookeeper") [beat 1 10; beat 1 20] (beat 0 30) []
                5 ["snow"] true Hrun eq_refl) as [_ Hzk].
    apply Hzk. discriminate.
Defined.

Lemma zookeeper_heartbeat_is_published_once :
  doHeartbeats base (service "zookeeper") 5 ["snow"] true [beat 1 10; beat 1 20; beat 1 30] =
    ([ZkCreateNode "/heartbeats/worker-1!snow"
        (statsFor base (service "zookeeper") 5 "snow") true true], Returned).
Proof. reflexivity. Qed.

(** When the factory gives no job, [handleEach] returns: the tasks after
    it in the batch are not looked at. *)
Lemma handleEach_nil_job {Job : Type} (b : Base)
    (CreateJob : string -> gmap string string -> option Job)
    (metaInfo taskConfig : gmap string string) (rest : list rawTask)
    (cs : @CollectService Job) :
  is_Some (taskConfig !! App b) ->
  get metaInfo (Host b) = host cs ->
  jobs cs !! get taskConfig (TaskConfigKey b) = None ->
  CreateJob (get taskConfig (App b)) taskConfig = None ->
  handleEach b CreateJob metaInfo (Task taskConfig :: rest) cs = cs.
Proof.
  intros [app Happ] Hhost Hjobs Hnil. cbn [handleEach].
  rewrite Happ, Hhost, String.eqb_refl, Hjobs, Hnil. reflexivity.
Qed.

(** C9 (the code departs from it). The factory knows no application type
    "bogus".  A batch with the unknown task first and a valid task second
    leaves the service as it was: the valid task gets no job and no
    callback.  The same valid task is started and called back when it comes
    first, and when the entry before it is garbled instead. *)
Theorem unknown_app_abandons_batch :
  let cs := service "kafka" in
  createJob "bogus" (<["App" := "bogus"]> (<["TaskConfigKey" := "t1"]> ∅)) = None
  /\ handleTasks base createJob (batch [task "bogus" "t1"; task "snow" "t2"]) cs = cs
  /\ calls (handleTasks base createJob (batch [task "snow" "t2"; task "bogus" "t1"]) cs) =
       [JobStart "job-t2"; GoCallback "job-t2"]
  /\ calls (handleTasks base createJob (batch [Garbled "{"; task "snow" "t2"]) cs) =
       [JobStart "job-t2"; GoCallback "job-t2"].
Proof. vm_compute. repeat split; reflexivity. Qed.

End services_facts.

(** ** The poll cycle of the reader, end to end *)

Module snow_cycle.
Import snow snow_facts.

(** *** What each method leaves of the reader *)

Lemma removeCollectedRecords_frame records snow :
  exists o st, removeCollectedRecords records snow = (o, with_state snow st).
Proof.
  unfold removeCollectedRecords. rewrite bind_run.
  destruct (getCheckpoint_frame snow) as (ck & st & ->).
  destruct ck as [ck|]; [|run; eauto].
  destruct (_ || _); [run; eauto|]. run.
  destruct (_ =? _); [|eauto].
  destruct (head records) as [[]|], (last records) as [[]|]; run; eauto.
  destruct (ifaceEq _ _) as [[]|]; run; eauto.
  destruct (time.Parse _); run; eauto.
Qed.

Lemma writeCheckpoint_frame records refreshed snow :
  exists o ck st,
    writeCheckpoint records refreshed snow =
      (o, with_state (with_checkpoint snow ck) st)
    /\ (ck = checkpoint snow
        \/ (writeError (checkpoint snow) = None /\ o = Done None
            /\ exists p, ck = mkCheckpointer (Some p) (getError (checkpoint snow)) None)).
Proof.
  unfold writeCheckpoint.
  assert (forall o, exists o' ck st,
            (o, snow) = (o' : outcome (option error), with_state (with_checkpoint snow ck) st)
            /\ (ck = checkpoint snow
                \/ (writeError (checkpoint snow) = None /\ o' = Done None
                    /\ exists p, ck = mkCheckpointer (Some p) (getError (checkpoint snow)) None)))
    as Same.
  { intros o. exists o, (checkpoint snow), (state snow). split; [|auto].
    destruct snow; reflexivity. }
  destruct (length records =? 0)%nat; [apply Same|]. run.
  destruct (scanMaxTimestamp _ _ _ _) as [ids|w]; [|apply Same]. run.
  destruct (assertString _) as [nrt|w]; [|apply Same]. run.
  unfold WriteCheckpoint. destruct (writeError (checkpoint snow)) as [e|] eqn:He; run.
  - rewrite with_checkpoint_same. apply Same.
  - clear Same. destruct snow as [cfg w ck h st0 c s]; cbn in *. subst.
    destruct ck as [b ge we]; cbn in *. subst we.
    destruct refreshed; run; cbn.
    + exists (Done None),
        (mkCheckpointer (Some (json_Marshal (mkState "1" nrt ids))) ge None), st0.
      split; [reflexivity|]. right. split; [reflexivity|].
      split; [reflexivity|]. eexists. reflexivity.
    + exists (Done None),
        (mkCheckpointer (Some (json_Marshal (mkState "1" nrt ids))) ge None),
        (mkState "1" nrt ids).
      split; [reflexivity|]. right. split; [reflexivity|].
      split; [reflexivity|]. eexists. reflexivity.
Qed.

Lemma CollectData_frame snow :
  exists r st reqs c,
    CollectData snow =
      (Done r, with_collecting (with_http (with_state snow st)
                                  (mkHttp (respond (http_client snow)) reqs)) c)
    /\ (reqs = requested (http_client snow)
        \/ exists url, reqs = requested (http_client snow) ++ [url])
    /\ (collecting snow = 0 -> c = 0)
    /\ (collecting snow <> 0 ->
        c = collecting snow /\ r = (None, None) /\ reqs = requested (http_client snow)).
Proof.
  unfold CollectData, CompareAndSwapCollecting. rewrite bind_run.
  destruct (Z.eqb_spec (collecting snow) 0) as [E|E]; cbn [negb].
  - unfold defer, doRequest. rewrite bind_run.
    destruct (getURL_frame (with_collecting snow 1)) as (u & st & ->). run.
    destruct snow as [cfg w ck [resp reqs] st0 c s]; cbn in *. subst c.
    destruct (resp u); run; cbn; eexists _, st, _, 0;
      (split; [reflexivity|]); (split; [eauto|]); (split; [reflexivity|]);
      intros; contradiction.
  - rewrite bind_run. destruct (getURL_frame snow) as (u & st & ->). run.
    exists (None, None), st, (requested (http_client snow)), (collecting snow).
    split; [destruct snow as [cfg w ck [resp reqs] st0 c s]; reflexivity|].
    split; [auto|]. split; [contradiction|auto].
Qed.

(** The cursor a reader reads does not change when it is read again from
    the state the first reading left. *)
Lemma cursor_stable snow snow2 :
  config snow2 = config snow ->
  checkpoint snow2 = checkpoint snow ->
  state snow2 = state (snd (getNextRecordTime snow)) ->
  fst (getNextRecordTime snow2) = fst (getNextRecordTime snow).
Proof.
  intros Hcfg Hck Hst.
  destruct (getCheckpoint snow) as [[[ck|]|why] s1] eqn:Hg.
  - rewrite (getNextRecordTime_Some _ _ _ Hg) in *. cbn [fst snd] in *.
    erewrite getNextRecordTime_Some; [reflexivity|].
    eapply getCheckpoint_stable; eassumption.
  - revert Hst. unfold getNextRecordTime. rewrite !bind_run, Hg. run. cbn [state fst snd].
    apply getCheckpoint_None in Hg as Hs1. subst s1.
    unfold additional. rewrite <- Hcfg. intros Hst.
    assert (NextRecordTime (state snow) = "") as Hempty.
    { revert Hg. unfold getCheckpoint.
      destruct (String.eqb_spec (NextRecordTime (state snow)) ""); [auto|discriminate]. }
    destruct (getCheckpoint snow2) as [[[ck2|]|why] s2] eqn:Hg2; run; cbn [fst snd].
    + apply getCheckpoint_Some in Hg2 as Hs2. destruct Hs2 as [-> Hs2]. cbn in *.
      revert Hg2. unfold getCheckpoint. rewrite Hst. cbn [NextRecordTime].
      destruct (String.eqb_spec (get (AdditionalConfig (config snow2)) nextRecordTimeKey) "")
        as [E|E]; cbn [negb].
      * rewrite Hck. revert Hg. unfold getCheckpoint. rewrite Hempty. cbn.
        destruct (GetCheckpoint (checkpoint snow)) as [[p|] [e|]]; try discriminate.
        destruct (json_Unmarshal p); discriminate.
      * intros [= <- _]. destruct snow2; reflexivity.
    + apply getCheckpoint_None in Hg2 as ->. destruct snow2; reflexivity.
    + destruct (getCheckpoint_returns snow2) as [o Ho]. rewrite Hg2 in Ho. discriminate.
  - destruct (getCheckpoint_returns snow) as [o Ho]. rewrite Hg in Ho. discriminate.
Qed.

Lemma getURL_state snow : state (snd (getURL snow)) = state (snd (getNextRecordTime snow)).
Proof.
  unfold getURL. rewrite bind_run.
  destruct (getNextRecordTime snow) as [[u|why] s1]; run; reflexivity.
Qed.

(** *** Well-formed pages *)

Lemma wellFormed_fields tf r :
  wellFormed tf r ->
  field r tf = VStr (timeOf tf r) /\ field r "sys_id" = VStr (idOf r).
Proof.
  intros [[t Ht] [i Hi]]. unfold timeOf, idOf, field. rewrite Ht, Hi. auto.
Qed.

Lemma scanMaxTimestamp_wellFormed tf t (l : list (gmap string value)) acc :
  Forall (wellFormed tf) l ->
  scanMaxTimestamp tf (VStr t) (VObj <$> l) acc = Done (acc ++ (idOf <$> sameTime tf t l)).
Proof.
  intros H. revert acc. induction H as [|r l Hr _ IH]; intros acc.
  - cbn. rewrite app_nil_r. reflexivity.
  - destruct (wellFormed_fields tf r Hr) as [Ht Hi].
    rewrite fmap_cons.
    cbn [scanMaxTimestamp assertObject mbind outcome_bind sameTime].
    rewrite Ht. cbn [ifaceEq]. destruct (String.eqb (timeOf tf r) t).
    + rewrite Hi. cbn [assertString mbind outcome_bind].
      rewrite IH, fmap_cons, <- app_assoc. reflexivity.
    + rewrite fmap_nil, app_nil_r. reflexivity.
Qed.

Lemma last_fmap_obj (page : list (gmap string value)) :
  last (VObj <$> page) = VObj <$> last page.
Proof. induction page as [|r [|r' page] IH]; try reflexivity. exact IH. Qed.

Lemma sameTime_spec tf t l :
  sameTime tf t l `prefix_of` l /\ Forall (fun r => timeOf tf r = t) (sameTime tf t l).
Proof.
  induction l as [|r l [IHp IHf]]; cbn.
  - split; [reflexivity|constructor].
  - destruct (String.eqb_spec (timeOf tf r) t) as [E|E].
    + split; [apply prefix_cons; exact IHp|constructor; assumption].
    + split; [apply prefix_nil|constructor].
Qed.

Lemma sameTime_all tf t l :
  Forall (fun r => timeOf tf r = t) l -> sameTime tf t l = l.
Proof.
  induction 1 as [|r l Hr _ IH]; cbn; [reflexivity|].
  rewrite Hr, String.eqb_refl, IH. reflexivity.
Qed.

Lemma lastRun_spec tf page lastRecord :
  last page = Some lastRecord ->
  (exists older, lastRun tf page = lastRecord :: older)
  /\ Forall (fun r => timeOf tf r = timeOf tf lastRecord /\ r ∈ page) (lastRun tf page)
  /\ (Forall (fun r => timeOf tf r = timeOf tf lastRecord) page ->
      lastRun tf page = reverse page).
Proof.
  intros Hlast. unfold lastRun. rewrite Hlast.
  assert (exists front, page = front ++ [lastRecord]) as [front ->].
  { apply last_Some in Hlast. exact Hlast. }
  rewrite reverse_app. cbn [reverse rev_append app sameTime].
  change (rev_append [lastRecord] []) with [lastRecord]. cbn [app sameTime].
  rewrite String.eqb_refl. split; [eauto|]. split.
  - constructor; [split; [reflexivity|set_solver]|].
    destruct (sameTime_spec tf (timeOf tf lastRecord) (reverse front)) as [Hp Hf].
    apply Forall_forall. intros r Hr. split.
    + rewrite Forall_forall in Hf. apply Hf. exact Hr.
    + apply elem_of_app. left. apply elem_of_reverse.
      destruct Hp as [k Hk]. rewrite Hk. apply elem_of_app. left. exact Hr.
  - intros Hall. apply Forall_app in Hall as [Hall _].
    rewrite sameTime_all; [reflexivity|]. apply Forall_reverse. exact Hall.
Qed.

Lemma writeCheckpoint_run (page : list (gmap string value)) lastRecord refreshed snow :
  let tf := additional snow timestampFieldKey in
  last page = Some lastRecord ->
  Forall (wellFormed tf) page ->
  writeError (checkpoint snow) = None ->
  writeCheckpoint (VObj <$> page) refreshed snow =
    (Done None,
     with_state
       (with_checkpoint snow
          (mkCheckpointer (Some (Encoded (checkpointOf tf page lastRecord)))
             (getError (checkpoint snow)) None))
       (if refreshed then state snow else checkpointOf tf page lastRecord)).
Proof.
  intros tf Hlast Hwf Hwe. unfold writeCheckpoint.
  destruct page as [|r0 page0] eqn:Hpage; [discriminate|]. rewrite <- Hpage in *.
  replace (length (VObj <$> page) =? 0)%nat with false
    by (rewrite Hpage; reflexivity).
  run. fold tf. rewrite last_fmap_obj, Hlast. cbn [fmap option_fmap option_map].
  assert (wellFormed tf lastRecord) as Hl.
  { rewrite Forall_forall in Hwf. apply Hwf. apply last_Some in Hlast as [k ->].
    set_solver. }
  destruct (wellFormed_fields tf lastRecord Hl) as [Ht _]. rewrite Ht.
  rewrite <- fmap_reverse, scanMaxTimestamp_wellFormed by (apply Forall_reverse; exact Hwf).
  run. unfold WriteCheckpoint. rewrite Hwe. run.
  unfold checkpointOf, lastRun, json_Marshal. rewrite Hlast. cbn [app].
  destruct refreshed; run; destruct snow as [cfg w [b ge we] h st c s]; cbn in *;
    subst; reflexivity.
Qed.

(** X6. On a non-empty page of records that carry a string timestamp and a
    string ID, with a checkpointer that accepts the write, writeCheckpoint
    returns nil and stores the checkpoint with version 1, the timestamp of
    the last record, and the IDs of the records at the end of the page that
    share that timestamp, the last record's ID first: every ID listed
    belongs to a record of the page with that timestamp, and when the whole
    page has one timestamp the list is all IDs in reverse page order.  The
    cache takes the same checkpoint unless refreshed is set, in which case
    it is left as it was. *)
Theorem writeCheckpoint_well_formed (page : list (gmap string value))
    (lastRecord : gmap string value) (refreshed : bool) (snow : SnowDataReader) :
  let tf := additional snow timestampFieldKey in
  let committed := checkpointOf tf page lastRecord in
  let snow' := snd (writeCheckpoint (VObj <$> page) refreshed snow) in
  last page = Some lastRecord ->
  Forall (wellFormed tf) page ->
  writeError (checkpoint snow) = None ->
  fst (writeCheckpoint (VObj <$> page) refreshed snow) = Done None
  /\ blob (checkpoint snow') = Some (Encoded committed)
  /\ state snow' = (if refreshed then state snow else committed)
  /\ NextRecordTime committed = timeOf tf lastRecord
  /\ (exists older, LastTimeRecords committed = idOf lastRecord :: older)
  /\ (forall id, id ∈ LastTimeRecords committed ->
        exists r, r ∈ page /\ idOf r = id /\ timeOf tf r = timeOf tf lastRecord)
  /\ (Forall (fun r => timeOf tf r = timeOf tf lastRecord) page ->
        LastTimeRecords committed = idOf <$> reverse page).
Proof.
  intros tf committed snow' Hlast Hwf Hwe. subst snow'.
  rewrite (writeCheckpoint_run page lastRecord refreshed snow Hlast Hwf Hwe).
  destruct (lastRun_spec tf page lastRecord Hlast) as ([older Ho] & Hall & Hfull).
  cbn [fst snd]. split; [reflexivity|].
  split; [destruct snow; reflexivity|]. split; [destruct snow; reflexivity|].
  split; [reflexivity|]. subst committed. unfold checkpointOf. cbn [LastTimeRecords].
  split; [|split].
  - rewrite Ho. eexists. reflexivity.
  - intros id Hid. apply list_elem_of_fmap in Hid as (r & -> & Hr).
    rewrite Forall_forall in Hall. destruct (Hall r Hr). eauto.
  - intros Hsame. rewrite (Hfull Hsame). reflexivity.
Qed.

(** X7. What writeCheckpoint stores is what getCheckpoint loads: after a
    successful write of a well-formed page, a reader with an empty cache (as
    after a restart) and a checkpointer that reads without error gets the
    checkpoint just written and caches it; when refreshed was false this is
    the very reader writeCheckpoint left. *)
Theorem checkpoint_round_trip (page : list (gmap string value))
    (lastRecord : gmap string value) (refreshed : bool) (snow : SnowDataReader) :
  let tf := additional snow timestampFieldKey in
  let snow' := snd (writeCheckpoint (VObj <$> page) refreshed snow) in
  let restarted := with_state snow' (mkState "" "" []) in
  last page = Some lastRecord ->
  Forall (wellFormed tf) page ->
  writeError (checkpoint snow) = None ->
  getError (checkpoint snow) = None ->
  getCheckpoint restarted =
    (Done (Some (checkpointOf tf page lastRecord)),
     with_state snow' (checkpointOf tf page lastRecord))
  /\ (refreshed = false -> snd (getCheckpoint restarted) = snow').
Proof.
  intros tf snow' restarted Hlast Hwf Hwe Hge. subst restarted snow'.
  rewrite (writeCheckpoint_run page lastRecord refreshed snow Hlast Hwf Hwe).
  cbn [snd]. unfold getCheckpoint, GetCheckpoint.
  destruct snow as [cfg w [b ge we] h st c s]; cbn in *. subst.
  split; [reflexivity|]. intros ->. reflexivity.
Qed.

Section Cycles.

Variables base_ServerURL base_Username : string.

Local Abbreviation IndexData := (IndexData base_ServerURL base_Username).

(** Everything a poll cycle can do to the reader, whatever it fetched. *)
Lemma IndexData_frame snow :
  exists o w ck reqs st c,
    IndexData snow =
      (o, mkReader (config snow) w ck (mkHttp (respond (http_client snow)) reqs)
            st c (started snow))
    /\ (reqs = requested (http_client snow)
        \/ exists url, reqs = requested (http_client snow) ++ [url])
    /\ (collecting snow = 0 -> c = 0)
    /\ (collecting snow <> 0 ->
        c = collecting snow /\ o = Done None /\ reqs = requested (http_client snow)
        /\ w = writer snow /\ ck = checkpoint snow)
    /\ ((w = writer snow /\ ck = checkpoint snow)
        \/ (exists d,
              writeDataError (writer snow) = None
              /\ w = mkWriter (written (writer snow) ++ [d]) None
              /\ (ck = checkpoint snow
                  \/ (writeError (checkpoint snow) = None /\ o = Done None
                      /\ exists p,
                           ck = mkCheckpointer (Some p) (getError (checkpoint snow)) None)))).
Proof.
  unfold snow.IndexData. rewrite bind_run.
  destruct (CollectData_frame snow) as (r & st1 & reqs & c & -> & Hreqs & Hfree & Hheld).
  destruct snow as [cfg w ck [resp reqs0] st0 c0 s]; cbn in *.
  assert (forall (o : outcome (option error)) st,
            (c0 <> 0 -> o = Done None) ->
            exists o' w' ck' reqs' st' c',
              (o, mkReader cfg w ck (mkHttp resp reqs) st c s) =
                (o', mkReader cfg w' ck' (mkHttp resp reqs') st' c' s)
              /\ (reqs' = reqs0 \/ exists url, reqs' = reqs0 ++ [url])
              /\ (c0 = 0 -> c' = 0)
              /\ (c0 <> 0 -> c' = c0 /\ o' = Done None /\ reqs' = reqs0 /\ w' = w /\ ck' = ck)
              /\ ((w' = w /\ ck' = ck)
                  \/ (exists d, writeDataError w = None
                        /\ w' = mkWriter (written w ++ [d]) None
                        /\ (ck' = ck \/ (writeError ck = None /\ o' = Done None
                                         /\ exists p, ck' = mkCheckpointer (Some p) (getError ck) None)))))
    as Quiet.
  { intros o st Ho. exists o, w, ck, reqs, st, c. split; [reflexivity|].
    split; [exact Hreqs|]. split; [exact Hfree|]. split; [|auto].
    intros Hc. destruct (Hheld Hc) as (-> & _ & ->). auto. }
  destruct r as [[data|] [err|]]; run;
    try (apply Quiet; intros Hc; destruct (Hheld Hc) as (_ & [=] & _); reflexivity).
  assert (c0 = 0) as -> .
  { destruct (Z.eq_dec c0 0) as [E|E]; [exact E|].
    destruct (Hheld E) as (_ & [=] & _). }
  specialize (Hfree eq_refl). subst c. clear Hheld.
  pose proof (fun o st => Quiet o st (fun H : 0 <> 0 => match H eq_refl with end))
    as Quiet0.
  clear Quiet.
  destruct (ToJsonObject data) as [jobj|e]; run; [|apply Quiet0].
  destruct (jobj !! "records") as [[| | | |records|]|] eqn:Hrec;
    try (destruct (jobj !! "error") as [desc|]; run; [|apply Quiet0];
         match goal with
         | |- context [getURL ?x] => destruct (getURL_frame x) as (u & st2 & ->)
         end; run; apply Quiet0).
  run.
  match goal with
  | |- context [removeCollectedRecords records ?x] =>
      destruct (removeCollectedRecords_frame records x) as (o2 & st2 & ->)
  end.
  destruct o2 as [[toEmit refreshed]|why]; run; [|apply Quiet0].
  destruct (printRecords toEmit) as [rows|why]; run; [|apply Quiet0].
  destruct (length toEmit) as [|n] eqn:Hlen; run; [apply Quiet0|].
  unfold WriteData. cbn.
  destruct (writeDataError w) as [e|] eqn:Hw; run; [destruct w; cbn in *; subst; apply Quiet0|].
  match goal with
  | |- context [writeCheckpoint toEmit refreshed ?x] =>
      destruct (writeCheckpoint_frame toEmit refreshed x) as (o3 & ck3 & st3 & -> & Hck)
  end.
  cbn in *. eexists o3, _, ck3, reqs, st3, 0. split; [reflexivity|].
  split; [exact Hreqs|]. split; [reflexivity|]. split; [intros H; contradiction|].
  right. eexists. split; [reflexivity|]. split; [reflexivity|].
  destruct Hck as [->|(Hwe & -> & p & ->)]; [left; reflexivity|].
  right. repeat split; eauto.
Qed.

Lemma CollectData_answer snow answer :
  collecting snow = 0 ->
  (forall url, respond (http_client snow) url = answer) ->
  exists st reqs,
    CollectData snow =
      (Done (resultOf answer),
       mkReader (config snow) (writer snow) (checkpoint snow)
         (mkHttp (respond (http_client snow)) reqs) st 0 (started snow))
    /\ st = state (snd (getURL snow))
    /\ ((exists e, answer = RequestFails e) /\ reqs = requested (http_client snow)
        \/ (forall e, answer <> RequestFails e)
           /\ exists url, reqs = requested (http_client snow) ++ [url]).
Proof.
  intros Hc Hans. unfold CollectData, CompareAndSwapCollecting. rewrite bind_run, Hc.
  cbn [Z.eqb negb]. unfold defer, doRequest. rewrite bind_run.
  assert (getURL (with_collecting snow 1) =
            (fst (getURL snow), with_collecting (snd (getURL snow)) 1)) as ->.
  { unfold getURL, getNextRecordTime. rewrite !bind_run, getCheckpoint_with_collecting.
    destruct (getCheckpoint snow) as [[[ck|]|why] s1]; run; destruct s1; reflexivity. }
  destruct (getURL_frame snow) as (u & st & ->). cbn [fst snd]. run.
  destruct snow as [cfg w ck [resp reqs] st0 c s]; cbn in *. subst c.
  rewrite (Hans u).
  destruct answer; run; cbn; eexists _, _; (split; [reflexivity|]); (split; [reflexivity|]);
    solve [ left; eauto | right; split; [intros e' [=]|eauto] ].
Qed.

(** X9. When building the request, sending it, opening the gzip stream,
    reading the body or decoding the JSON fails, IndexData returns that
    error, hands nothing to the writer, leaves the checkpoint alone and
    clears the collecting flag; when building the request failed, no request
    was sent. *)
Theorem source_failure_is_returned (snow : SnowDataReader) (answer : fetch) (e : error) :
  collecting snow = 0 ->
  (forall url, respond (http_client snow) url = answer) ->
  answer = RequestFails e \/ answer = DoFails e \/ answer = GzipFails e
    \/ answer = ReadFails e \/ (exists raw, answer = Fetched (BadBody raw)
                                   /\ e = Err "invalid JSON") ->
  let snow' := snd (IndexData snow) in
  fst (IndexData snow) = Done (Some e)
  /\ writer snow' = writer snow
  /\ checkpoint snow' = checkpoint snow
  /\ collecting snow' = 0
  /\ (answer = RequestFails e ->
      requested (http_client snow') = requested (http_client snow)).
Proof.
  intros Hc Hans Hkind snow'. subst snow'. unfold snow.IndexData. rewrite bind_run.
  destruct (CollectData_answer snow answer Hc Hans) as (st & reqs & -> & _ & Hreq).
  destruct Hkind as [->|[->|[->|[->|(raw & -> & ->)]]]]; cbn [resultOf]; run;
    cbn; repeat split; try reflexivity.
  all: intros [=].
  destruct Hreq as [[_ ->]|[Hne _]]; [reflexivity|]. exfalso. eapply Hne. reflexivity.
Qed.

(** X10. When the payload has no records array, IndexData emits nothing and
    writes no checkpoint; it returns the payload's error member as an error
    if there is one and nil otherwise. *)
Theorem source_payload_without_records (snow : SnowDataReader)
    (jobj : gmap string value) :
  collecting snow = 0 ->
  (forall url, respond (http_client snow) url = Fetched (JsonBody jobj)) ->
  (forall records, jobj !! "records" <> Some (VArr records)) ->
  let snow' := snd (IndexData snow) in
  fst (IndexData snow) =
    Done (match jobj !! "error" with
          | Some errDesc => Some (ErrSource errDesc)
          | None => None
          end)
  /\ writer snow' = writer snow
  /\ checkpoint snow' = checkpoint snow
  /\ collecting snow' = 0.
Proof.
  intros Hc Hans Hrec snow'. subst snow'. unfold snow.IndexData. rewrite bind_run.
  destruct (CollectData_answer snow _ Hc Hans) as (st & reqs & -> & _ & _).
  cbn [resultOf ToJsonObject].
  destruct (jobj !! "records") as [[| | | |records|]|] eqn:E;
    try (exfalso; eapply Hrec; reflexivity);
    (destruct (jobj !! "error") as [desc|]; run;
     [match goal with
      | |- context [getURL ?x] => destruct (getURL_frame x) as (u & st2 & ->)
      end; run; cbn; auto
     |cbn; auto]).
Qed.

(** X11. An empty records array makes the cycle quiet: IndexData returns
    nil, nothing is handed to the writer, no checkpoint is written, and the
    next cursor is the cursor of this cycle. *)
Theorem empty_page_is_quiet (snow : SnowDataReader) (jobj : gmap string value) :
  collecting snow = 0 ->
  (forall url, respond (http_client snow) url = Fetched (JsonBody jobj)) ->
  jobj !! "records" = Some (VArr []) ->
  let snow' := snd (IndexData snow) in
  fst (IndexData snow) = Done None
  /\ writer snow' = writer snow
  /\ checkpoint snow' = checkpoint snow
  /\ fst (getNextRecordTime snow') = fst (getNextRecordTime snow).
Proof.
  intros Hc Hans Hrec snow'. subst snow'. unfold snow.IndexData. rewrite bind_run.
  destruct (CollectData_answer snow _ Hc Hans) as (st & reqs & -> & Hst & _).
  cbn [resultOf ToJsonObject]. rewrite Hrec. run.
  unfold removeCollectedRecords. rewrite bind_run.
  match goal with
  | |- context [getCheckpoint ?x] =>
      set (snow1 := x);
      destruct (getCheckpoint_frame snow1) as (o & st2 & Hg); rewrite Hg
  end.
  assert (fst (getNextRecordTime (with_state snow1 st2)) = fst (getNextRecordTime snow))
    as Hcursor.
  { pose proof (getNextRecordTime_after_getCheckpoint snow1) as H1. rewrite Hg in H1.
    cbn [snd] in H1. rewrite H1. apply cursor_stable; subst snow1; cbn; try reflexivity.
    rewrite Hst. apply getURL_state. }
  destruct o as [ck|]; run.
  - cbn [length Nat.eqb]. rewrite orb_true_r.
    run. cbn [printRecords]. run. cbn. repeat split; try exact Hcursor.
  - cbn [printRecords]. run. cbn. repeat split; exact Hcursor.
Qed.

Lemma printRecords_objects (page : list (gmap string value)) :
  printRecords (VObj <$> page) = Done (Printed <$> page).
Proof.
  induction page as [|r page IH]; [reflexivity|].
  rewrite !fmap_cons. cbn [printRecords assertObject mbind outcome_bind].
  rewrite IH. reflexivity.
Qed.

(** X8. The first poll of a reader made by NewSnowDataReader, with no stored
    checkpoint, a source that answers with a page of well-formed records,
    and a writer and a checkpointer that accept: IndexData returns nil, sends
    one request whose cursor is the configured NextRecordTime with its first
    blank replaced by a plus sign, hands the writer one envelope that holds
    as many nil rows as the page has records followed by one printed row per
    record, stores and caches the checkpoint of the page, and leaves the
    collecting flag at 0. *)
Theorem first_poll_of_fresh_reader (cfg : BaseConfig) (w : DataWriter)
    (ckp : Checkpointer) (net : string -> fetch) (snow : SnowDataReader)
    (jobj : gmap string value) (page : list (gmap string value))
    (lastRecord : gmap string value) :
  let tf := get (AdditionalConfig cfg) timestampFieldKey in
  let start := get (AdditionalConfig cfg) nextRecordTimeKey in
  NewSnowDataReader cfg w ckp net = Some snow ->
  blob ckp = None ->
  writeError ckp = None ->
  writeDataError w = None ->
  (forall url, net url = Fetched (JsonBody jobj)) ->
  jobj !! "records" = Some (VArr (VObj <$> page)) ->
  last page = Some lastRecord ->
  Forall (wellFormed tf) page ->
  let snow' := snd (IndexData snow) in
  fst (IndexData snow) = Done None
  /\ requested (http_client snow') = [urlFor snow (gostrings.ReplaceFirst start " " "+")]
  /\ RawData <$> written (writer snow') =
       (RawData <$> written w) ++ [replicate (length page) NilRow ++ (Printed <$> page)]
  /\ blob (checkpoint snow') = Some (Encoded (checkpointOf tf page lastRecord))
  /\ state snow' = checkpointOf tf page lastRecord
  /\ collecting snow' = 0.
Proof.
  intros tf start Hnew Hblob Hwe Hwd Hnet Hrec Hlast Hwf snow'. subst snow'.
  unfold NewSnowDataReader in Hnew. destruct (forallb _ _); [|discriminate].
  injection Hnew as <-.
  assert (GetCheckpoint ckp = (None, getError ckp)) as Hget.
  { unfold GetCheckpoint. rewrite Hblob. destruct (getError ckp); reflexivity. }
  set (st1 := mkState "" start []).
  set (url := urlFor (mkReader cfg w ckp (mkHttp net []) (mkState "" "" []) 0 0)
                (gostrings.ReplaceFirst start " " "+")).
  assert (CollectData (mkReader cfg w ckp (mkHttp net []) (mkState "" "" []) 0 0) =
            (Done (Some (JsonBody jobj), None),
             mkReader cfg w ckp (mkHttp net [url]) st1 0 0)) as Hcollect.
  { unfold CollectData, CompareAndSwapCollecting. rewrite bind_run. cbn [collecting Z.eqb negb].
    unfold defer, doRequest, getURL, getNextRecordTime. rewrite !bind_run.
    unfold getCheckpoint at 1. cbn [state NextRecordTime String.eqb negb with_collecting checkpoint].
    rewrite Hget. replace (match getError ckp with Some _ | _ => (Done None, _) end)
      with (@Done (option collectionState) None,
            mkReader cfg w ckp (mkHttp net []) (mkState "" "" []) 1 0)
      by (destruct (getError ckp); reflexivity).
    run. cbn. rewrite Hnet. run. reflexivity. }
  unfold snow.IndexData. rewrite bind_run, Hcollect. cbn [ToJsonObject]. rewrite Hrec. run.
  assert (removeCollectedRecords (VObj <$> page)
            (mkReader cfg w ckp (mkHttp net [url]) st1 0 0) =
          (Done (VObj <$> page, false), mkReader cfg w ckp (mkHttp net [url]) st1 0 0)) as ->.
  { unfold removeCollectedRecords. rewrite bind_run. unfold getCheckpoint.
    cbn [state NextRecordTime st1 checkpoint]. rewrite Hget.
    destruct (negb (String.eqb start "")); [reflexivity|].
    destruct (getError ckp); reflexivity. }
  run. rewrite printRecords_objects. run. rewrite length_fmap.
  destruct page as [|r0 page0] eqn:Hpage; [discriminate|]. rewrite <- Hpage in *.
  replace (0 <? length page)%nat with true by (rewrite Hpage; reflexivity).
  run. unfold WriteData. cbn [writer]. rewrite Hwd. run.
  match goal with
  | |- context [writeCheckpoint (VObj <$> page) false ?x] =>
      pose proof (writeCheckpoint_run page lastRecord false x Hlast) as Hw
  end.
  rewrite Hw; [|exact Hwf|exact Hwe]. cbn.
  rewrite fmap_app. repeat split; reflexivity.
Qed.

(** X12. What one cycle of IndexData can do, whatever the source answers:
    the checkpoint changes only in a cycle that returned nil and handed
    exactly one envelope to the writer; the writer receives at most one
    envelope, the source at most one request; configuration, started flag
    and the source itself are untouched. *)
Theorem checkpoint_only_after_emission (snow : SnowDataReader) :
  let snow' := snd (IndexData snow) in
  (checkpoint snow' <> checkpoint snow ->
     fst (IndexData snow) = Done None
     /\ exists d, written (writer snow') = written (writer snow) ++ [d])
  /\ (written (writer snow') = written (writer snow)
      \/ exists d, written (writer snow') = written (writer snow) ++ [d])
  /\ (requested (http_client snow') = requested (http_client snow)
      \/ exists url, requested (http_client snow') = requested (http_client snow) ++ [url])
  /\ config snow' = config snow
  /\ started snow' = started snow
  /\ respond (http_client snow') = respond (http_client snow).
Proof.
  intros snow'. subst snow'.
  destruct (IndexData_frame snow) as (o & w & ck & reqs & st & c & -> & Hreqs & _ & _ & Hw).
  cbn. split; [|split; [|split; [exact Hreqs|auto]]].
  - intros Hne. destruct Hw as [[_ ->]|(d & _ & -> & [->|(_ & -> & _)])];
      try contradiction. split; [reflexivity|]. eauto.
  - destruct Hw as [[-> _]|(d & _ & -> & _)]; [auto|]. right. eauto.
Qed.

(** X13. A cycle that finds the collecting flag set does nothing: IndexData
    returns nil, sends no request, emits nothing, writes no checkpoint and
    leaves the flag; a cycle that finds the flag clear leaves it clear,
    whichever way the cycle ends. *)
Theorem poll_guard_around_cycle (snow : SnowDataReader) :
  let snow' := snd (IndexData snow) in
  (collecting snow <> 0 ->
     fst (IndexData snow) = Done None
     /\ writer snow' = writer snow
     /\ checkpoint snow' = checkpoint snow
     /\ http_client snow' = http_client snow
     /\ collecting snow' = collecting snow)
  /\ (collecting snow = 0 -> collecting snow' = 0).
Proof.
  intros snow'. subst snow'.
  destruct (IndexData_frame snow) as (o & w & ck & reqs & st & c & -> & _ & Hfree & Hheld & _).
  cbn. split; [|exact Hfree].
  intros Hc. destruct (Hheld Hc) as (-> & -> & -> & -> & ->).
  repeat split; try reflexivity. destruct snow as [? ? ? [? ?] ? ? ?]; reflexivity.
Qed.

(** X14. With a writer that refuses the envelope no cycle changes the
    writer's log or the checkpoint; with a checkpointer that refuses the
    write no cycle changes the checkpoint. *)
Theorem refused_write_commits_nothing (snow : SnowDataReader) :
  let snow' := snd (IndexData snow) in
  (is_Some (writeDataError (writer snow)) ->
     writer snow' = writer snow /\ checkpoint snow' = checkpoint snow)
  /\ (is_Some (writeError (checkpoint snow)) -> checkpoint snow' = checkpoint snow).
Proof.
  intros snow'. subst snow'.
  destruct (IndexData_frame snow) as (o & w & ck & reqs & st & c & -> & _ & _ & _ & Hw).
  cbn. split.
  - intros [e He]. destruct Hw as [H|(d & Hnone & _)]; [exact H|congruence].
  - intros [e He]. destruct Hw as [[_ H]|(d & _ & _ & [H|(Hnone & _)])];
      [exact H|exact H|congruence].
Qed.

End Cycles.

(** X1. The reader's Start and Stop are guarded by the started flag: a
    second Start and a second Stop call nothing; from a reader that is not
    started, Start starts the writer and then the checkpointer and sets the
    flag to 1, and Stop after it stops them in the same order and gives the
    reader back as it was; Start on a reader whose flag is not 0 and Stop on
    one whose flag is not 1 call nothing and change nothing. *)
Theorem reader_lifecycle (snow : SnowDataReader) :
  fst (Start (snd (Start snow))) = []
  /\ fst (Stop (snd (Stop snow))) = []
  /\ (started snow = 0 ->
      Start snow = ([WriterStart; CheckpointStart], with_started snow 1)
      /\ Stop (snd (Start snow)) = ([WriterStop; CheckpointStop], snow))
  /\ (started snow <> 0 -> Start snow = ([], snow))
  /\ (started snow <> 1 -> Stop snow = ([], snow)).
Proof.
  unfold Start, Stop. repeat split.
  - destruct (Z.eqb_spec (started snow) 0) as [E|E]; cbn; [reflexivity|].
    destruct (Z.eqb_spec (started snow) 0); [contradiction|reflexivity].
  - destruct (Z.eqb_spec (started snow) 1) as [E|E]; cbn; [reflexivity|].
    destruct (Z.eqb_spec (started snow) 1); [contradiction|reflexivity].
  - rewrite H. reflexivity.
  - rewrite H. cbn. destruct snow; cbn in *; subst; reflexivity.
  - destruct (Z.eqb_spec (started snow) 0); [contradiction|reflexivity].
  - destruct (Z.eqb_spec (started snow) 1); [contradiction|reflexivity].
Qed.

(** X3. removeCollectedRecords hands the page back untouched with
    refreshed = false when there is no checkpoint, when the checkpoint lists
    no last-time records, or when the page is empty; the only effect is the
    cache fill of getCheckpoint. *)
Theorem pass_through_without_checkpoint (records : list value) (snow : SnowDataReader) :
  fst (getCheckpoint snow) = Done None
  \/ (exists ck, fst (getCheckpoint snow) = Done (Some ck) /\ LastTimeRecords ck = [])
  \/ records = [] ->
  removeCollectedRecords records snow = (Done (records, false), snd (getCheckpoint snow)).
Proof.
  intros H. unfold removeCollectedRecords. rewrite bind_run.
  destruct (getCheckpoint_returns snow) as [o Ho].
  destruct (getCheckpoint snow) as [r s1]. cbn [fst snd] in *. subst r.
  destruct o as [ck|]; [|reflexivity].
  destruct H as [H|[(ck' & Hck & Hl)| ->]]; [discriminate| |].
  - injection Hck as <-. rewrite Hl. reflexivity.
  - cbn [length Nat.eqb]. rewrite orb_true_r. reflexivity.
Qed.

(** X4. removeCollectedRecords returns refreshed = true only when a
    checkpoint with last-time records exists, the page has exactly as many
    entries as RecordCount says, its first and last entries are objects with
    equal timestamp fields, and the checkpoint's NextRecordTime parses; then the
    records returned are the de-duplicated page, the cache holds the
    checkpoint's version, no last-time records and the time one second
    later, and up to year 9999 that cursor parses back to exactly one second
    after the old one. *)
Theorem refresh_only_when_saturated (records toEmit : list value)
    (snow snow' : SnowDataReader) :
  removeCollectedRecords records snow = (Done (toEmit, true), snow') ->
  exists ck t,
    fst (getCheckpoint snow) = Done (Some ck)
    /\ LastTimeRecords ck <> []
    /\ Z.of_nat (length records) = fst (strconv.Atoi (additional snow recordCountKey))
    /\ (exists first lastRecord,
          head records = Some (VObj first) /\ last records = Some (VObj lastRecord)
          /\ ifaceEq (field first (additional snow timestampFieldKey))
                     (field lastRecord (additional snow timestampFieldKey)) = Done true)
    /\ time.Parse (NextRecordTime ck) = Some t
    /\ toEmit = doRemoveRecords snow records (toSet (LastTimeRecords ck)) (NextRecordTime ck)
    /\ state snow' = mkState (Version ck) (time.Format (time.AddSecond t)) []
    /\ time.Unix (time.AddSecond t) = time.Unix t + 1
    /\ (time.year (time.AddSecond t) <= 9999 ->
        exists t', time.Parse (NextRecordTime (state snow')) = Some t'
                   /\ time.Unix t' = time.Unix t + 1).
Proof.
  unfold removeCollectedRecords. rewrite bind_run.
  destruct (getCheckpoint snow) as [[[ck|]|why] s1] eqn:Hg; cbn [fst snd];
    [| |discriminate]; [|discriminate].
  destruct (getCheckpoint_Some _ _ _ Hg) as [-> Hst].
  destruct (LastTimeRecords ck) as [|i ltr] eqn:Hltr; [discriminate|].
  cbn [length Nat.eqb orb].
  destruct (length records =? 0)%nat; [discriminate|]. run.
  replace (additional (with_state snow ck) recordCountKey)
    with (additional snow recordCountKey) by (destruct snow; reflexivity).
  replace (additional (with_state snow ck) timestampFieldKey)
    with (additional snow timestampFieldKey) by (destruct snow; reflexivity).
  destruct (Z.eqb_spec (Z.of_nat (length records))
              (fst (strconv.Atoi (additional snow recordCountKey)))) as [Hlen|];
    [|discriminate].
  destruct (head records) as [[]|] eqn:Hh, (last records) as [[]|] eqn:Hl; run;
    try discriminate.
  destruct (ifaceEq _ _) as [[]|] eqn:Hsame; run; try discriminate.
  destruct (time.Parse (NextRecordTime ck)) as [t|] eqn:Hp; run; [|discriminate].
  intros [= <- <-]. exists ck, t.
  pose proof (time_facts.Parse_valid _ _ Hp) as Hv.
  split; [rewrite ?Hg; reflexivity|]. split; [rewrite Hltr; discriminate|].
  split; [exact Hlen|]. split; [eauto|]. split; [exact Hp|]. split.
  { rewrite Hltr. unfold doRemoveRecords. destruct snow; reflexivity. }
  split; [destruct snow; reflexivity|].
  split; [apply time_facts.Unix_AddSecond; exact Hv|].
  intros Hy. eexists. split.
  - cbn [state with_state NextRecordTime].
    apply time_facts.Parse_Format. apply time_facts.AddSecond_valid; assumption.
  - rewrite time_facts.Unix_whole. apply time_facts.Unix_AddSecond. exact Hv.
Qed.

(** X2. Where getNextRecordTime takes the cursor from, in this order: a
    cached NextRecordTime that is not empty is used and nothing changes;
    otherwise a stored checkpoint that the checkpointer returns without
    error and that decodes is used and becomes the cache; otherwise the
    configured NextRecordTime is used and written into the cache.  In each
    case the first blank of the cursor is replaced by a plus sign. *)
Theorem cursor_precedence (snow : SnowDataReader) :
  let plus s := gostrings.ReplaceFirst s " " "+" in
  (NextRecordTime (state snow) <> "" ->
     getNextRecordTime snow = (Done (plus (NextRecordTime (state snow))), snow))
  /\ (forall ck,
        NextRecordTime (state snow) = "" ->
        GetCheckpoint (checkpoint snow) = (Some (Encoded ck), None) ->
        getNextRecordTime snow = (Done (plus (NextRecordTime ck)), with_state snow ck))
  /\ (NextRecordTime (state snow) = "" ->
      (forall ck, GetCheckpoint (checkpoint snow) <> (Some (Encoded ck), None)) ->
      getNextRecordTime snow =
        (Done (plus (additional snow nextRecordTimeKey)),
         with_state snow (mkState (Version (state snow))
                            (additional snow nextRecordTimeKey)
                            (LastTimeRecords (state snow))))).
Proof.
  intros plus. repeat split.
  - intros H. apply getCheckpoint_cached in H as Hg.
    rewrite (getNextRecordTime_Some _ _ _ Hg). reflexivity.
  - intros ck He Hget.
    assert (getCheckpoint snow = (Done (Some ck), with_state snow ck)) as Hg.
    { unfold getCheckpoint. rewrite He, Hget. reflexivity. }
    rewrite (getNextRecordTime_Some _ _ _ Hg). reflexivity.
  - intros He Hget.
    assert (getCheckpoint snow = (Done None, snow)) as Hg.
    { unfold getCheckpoint. rewrite He. cbn [String.eqb negb].
      destruct (GetCheckpoint (checkpoint snow)) as [[[ck|raw]|] [e|]]; try reflexivity.
      exfalso. eapply Hget. reflexivity. }
    unfold getNextRecordTime. rewrite bind_run, Hg. run. destruct snow; reflexivity.
Qed.

(** X5. De-duplicating twice against the same checkpoint gives what
    de-duplicating once gives; the result holds objects only, so the loop of
    IndexData that prints the records does not panic on it and prints one
    row per record; and the result is never longer than the page. *)
Theorem dedup_is_idempotent_and_printable (snow : SnowDataReader)
    (ck : collectionState) (records : list value) :
  let dedup l := doRemoveRecords snow l (toSet (LastTimeRecords ck)) (NextRecordTime ck) in
  dedup (dedup records) = dedup records
  /\ (exists rows, printRecords (dedup records) = Done rows
                   /\ length rows = length (dedup records))
  /\ (length (dedup records) <= length records)%nat.
Proof.
  intros dedup. subst dedup. cbv beta. rewrite !doRemoveRecords_filter.
  set (keep := fun x => kept (additional snow timestampFieldKey) ck x).
  split; [|split].
  - rewrite list_filter_filter. apply list_filter_iff. intros x. tauto.
  - induction records as [|x records IH]; [exists []; auto|].
    rewrite filter_cons. destruct (decide (keep x)) as [Hk|Hk]; [|exact IH].
    destruct IH as (rows & Hrows & Hlen).
    destruct x as [| | | | |r]; try (exfalso; exact Hk).
    exists (Printed r :: rows). cbn [printRecords assertObject mbind outcome_bind].
    rewrite Hrows. cbn. auto.
  - apply length_filter.
Qed.


(** *** The properties on concrete readers *)

Import samples.

Lemma mixedPage_wellFormed : Forall (wellFormed timefield) mixedPage.
Proof. repeat constructor; eexists; reflexivity. Qed.

Lemma writeCheckpoint_well_formed_witness :
  let snow := reader (Some "10") (mkState "1" T0 []) [] None in
  let snow' := snd (writeCheckpoint (VObj <$> mixedPage) false snow) in
  fst (writeCheckpoint (VObj <$> mixedPage) false snow) = Done None
  /\ blob (checkpoint snow') = Some (Encoded (mkState "1" T1 ["c"; "b"]))
  /\ state snow' = mkState "1" T1 ["c"; "b"].
Proof.
  intros snow snow'.
  destruct (writeCheckpoint_well_formed mixedPage (record "c" T1) false snow eq_refl
              mixedPage_wellFormed eq_refl) as (H1 & H2 & H3 & _).
  split; [exact H1|]. split; [exact H2|exact H3].
Defined.

Lemma checkpoint_round_trip_witness :
  let snow := reader (Some "10") (mkState "1" T0 []) [] None in
  let snow' := snd (writeCheckpoint (VObj <$> mixedPage) true snow) in
  getCheckpoint (with_state snow' (mkState "" "" [])) =
    (Done (Some (mkState "1" T1 ["c"; "b"])), with_state snow' (mkState "1" T1 ["c"; "b"])).
Proof.
  intros snow snow'.
  destruct (checkpoint_round_trip mixedPage (record "c" T1) true snow eq_refl
              mixedPage_wellFormed eq_refl eq_refl) as [H _].
  exact H.
Defined.

Lemma first_poll_of_fresh_reader_witness :
  let net := always (Fetched (JsonBody (<["records" := VArr (VObj <$> mixedPage)]> ∅))) in
  let snow := readerOn (Some "10") (mkState "" "" []) net (mkWriter [] None)
                (mkCheckpointer None None None) in
  let snow' := snd (IndexData "ServerURL" "Username" snow) in
  fst (IndexData "ServerURL" "Username" snow) = Done None
  /\ blob (checkpoint snow') = Some (Encoded (mkState "1" T1 ["c"; "b"]))
  /\ state snow' = mkState "1" T1 ["c"; "b"].
Proof.
  intros net snow snow'.
  destruct (first_poll_of_fresh_reader "ServerURL" "Username" (baseConfig (Some "10"))
              (mkWriter [] None) (mkCheckpointer None None None) net snow
              (<["records" := VArr (VObj <$> mixedPage)]> ∅) mixedPage (record "c" T1)
              eq_refl eq_refl eq_refl eq_refl (fun _ => eq_refl) eq_refl eq_refl
              mixedPage_wellFormed) as (H1 & _ & _ & H4 & H5 & _).
  split; [exact H1|]. split; [exact H4|exact H5].
Defined.

Lemma checkpoint_only_after_emission_witness :
  let snow := reader (Some "10") (mkState "1" T1 ["b"; "c"]) growingPage None in
  let snow' := snd (IndexData "ServerURL" "Username" snow) in
  checkpoint snow' <> checkpoint snow
  /\ fst (IndexData "ServerURL" "Username" snow) = Done None
  /\ exists d, written (writer snow') = written (writer snow) ++ [d].
Proof.
  intros snow snow'.
  assert (checkpoint snow' <> checkpoint snow) as Hne by (vm_compute; discriminate).
  destruct (checkpoint_only_after_emission "ServerURL" "Username" snow) as [H _].
  split; [exact Hne|]. exact (H Hne).
Defined.

Lemma poll_guard_around_cycle_witness :
  let idle := reader (Some "10") (mkState "1" T1 ["b"; "c"]) growingPage None in
  let busy := with_collecting idle 1 in
  (fst (IndexData "ServerURL" "Username" busy) = Done None
   /\ writer (snd (IndexData "ServerURL" "Username" busy)) = writer busy
   /\ checkpoint (snd (IndexData "ServerURL" "Username" busy)) = checkpoint busy
   /\ http_client (snd (IndexData "ServerURL" "Username" busy)) = http_client busy
   /\ collecting (snd (IndexData "ServerURL" "Username" busy)) = 1)
  /\ collecting (snd (IndexData "ServerURL" "Username" idle)) = 0.
Proof.
  intros idle busy.
  destruct (poll_guard_around_cycle "ServerURL" "Username" busy) as [Hheld _].
  destruct (poll_guard_around_cycle "ServerURL" "Username" idle) as [_ Hfree].
  split; [apply Hheld; discriminate|apply Hfree; reflexivity].
Defined.

Lemma refused_write_commits_nothing_witness :
  let snow := readerOn (Some "10") (mkState "1" T1 ["b"; "c"]) (answering growingPage)
                (mkWriter [] (Some (Err "broker down"))) (mkCheckpointer None None None) in
  writer (snd (IndexData "ServerURL" "Username" snow)) = writer snow
  /\ checkpoint (snd (IndexData "ServerURL" "Username" snow)) = checkpoint snow.
Proof.
  intros snow.
  destruct (refused_write_commits_nothing "ServerURL" "Username" snow) as [H _].
  apply H. eexists. reflexivity.
Defined.

Lemma source_failure_is_returned_witness :
  let snow := readerOn (Some "10") (mkState "1" T1 ["b"; "c"])
                (always (DoFails (Err "connection refused")))
                (mkWriter [] None) (mkCheckpointer None None None) in
  fst (IndexData "ServerURL" "Username" snow) = Done (Some (Err "connection refused"))
  /\ writer (snd (IndexData "ServerURL" "Username" snow)) = writer snow
  /\ checkpoint (snd (IndexData "ServerURL" "Username" snow)) = checkpoint snow.
Proof.
  intros snow.
  destruct (source_failure_is_returned "ServerURL" "Username" snow
              (DoFails (Err "connection refused")) (Err "connection refused")
              eq_refl (fun _ => eq_refl) (or_intror (or_introl eq_refl)))
    as (H1 & H2 & H3 & _).
  split; [exact H1|]. split; [exact H2|exact H3].
Defined.

Lemma source_payload_without_records_witness :
  let jobj : gmap string value := <["error" := VStr "Invalid table"]> ∅ in
  let snow := readerOn (Some "10") (mkState "1" T1 ["b"; "c"])
                (always (Fetched (JsonBody jobj)))
                (mkWriter [] None) (mkCheckpointer None None None) in
  fst (IndexData "ServerURL" "Username" snow) =
    Done (Some (ErrSource (VStr "Invalid table")))
  /\ writer (snd (IndexData "ServerURL" "Username" snow)) = writer snow.
Proof.
  intros jobj snow.
  destruct (source_payload_without_records "ServerURL" "Username" snow jobj
              eq_refl (fun _ => eq_refl)) as (H1 & H2 & _).
  - intros records. discriminate.
  - split; [exact H1|exact H2].
Defined.

Lemma empty_page_is_quiet_witness :
  let snow := reader (Some "10") (mkState "1" T1 ["b"; "c"]) [] None in
  fst (IndexData "ServerURL" "Username" snow) = Done None
  /\ writer (snd (IndexData "ServerURL" "Username" snow)) = writer snow
  /\ checkpoint (snd (IndexData "ServerURL" "Username" snow)) = checkpoint snow.
Proof.
  intros snow.
  destruct (empty_page_is_quiet "ServerURL" "Username" snow (<["records" := VArr []]> ∅)
              eq_refl (fun _ => eq_refl) eq_refl) as (H1 & H2 & H3 & _).
  split; [exact H1|]. split; [exact H2|exact H3].
Defined.

Lemma reader_lifecycle_witness :
  let snow := reader (Some "10") (mkState "" "" []) [] None in
  Start snow = ([WriterStart; CheckpointStart], with_started snow 1)
  /\ Stop (snd (Start snow)) = ([WriterStop; CheckpointStop], snow)
  /\ Stop snow = ([], snow).
Proof.
  intros snow.
  destruct (reader_lifecycle snow) as (_ & _ & Hfresh & _ & Hidle).
  destruct (Hfresh eq_refl) as [H1 H2].
  split; [exact H1|]. split; [exact H2|]. apply Hidle. discriminate.
Defined.

Lemma pass_through_without_checkpoint_witness :
  let snow := reader (Some "2") (mkState "" "" []) fullPage None in
  removeCollectedRecords fullPage snow = (Done (fullPage, false), snd (getCheckpoint snow)).
Proof.
  intros snow. apply pass_through_without_checkpoint. left. reflexivity.
Defined.

Lemma refresh_only_when_saturated_witness :
  let snow := reader (Some "2") (mkState "1" T1 ["a"]) fullPage None in
  exists ck t,
    fst (getCheckpoint snow) = Done (Some ck)
    /\ LastTimeRecords ck <> []
    /\ Z.of_nat (length fullPage) = fst (strconv.Atoi (additional snow recordCountKey))
    /\ time.Parse (NextRecordTime ck) = Some t
    /\ time.Unix (time.AddSecond t) = time.Unix t + 1.
Proof.
  intros snow.
  destruct (refresh_only_when_saturated fullPage [VObj (record "b" T1)] snow
              (with_state snow (mkState "1" T2 [])) eq_refl)
    as (ck & t & H1 & H2 & H3 & _ & H5 & _ & _ & H8 & _).
  exists ck, t. auto.
Defined.

Lemma cursor_precedence_witness :
  let cached := reader (Some "10") (mkState "1" T1 ["a"]) [] None in
  let stored :=
    readerOn (Some "10") (mkState "" "" []) (answering []) (mkWriter [] None)
      (mkCheckpointer (Some (Encoded (mkState "1" T2 ["z"]))) None None) in
  let fresh := reader (Some "10") (mkState "" "" []) [] None in
  fst (getNextRecordTime cached) = Done "2015-01-01+10:00:01"
  /\ fst (getNextRecordTime stored) = Done "2015-01-01+10:00:02"
  /\ fst (getNextRecordTime fresh) = Done "2015-01-01+10:00:00".
Proof.
  intros cached stored fresh.
  destruct (cursor_precedence cached) as (Hc & _ & _).
  destruct (cursor_precedence stored) as (_ & Hs & _).
  destruct (cursor_precedence fresh) as (_ & _ & Hf).
  rewrite Hc by discriminate.
  rewrite (Hs (mkState "1" T2 ["z"]) eq_refl eq_refl).
  rewrite Hf; [|reflexivity|intros ck; discriminate].
  repeat split; reflexivity.
Defined.

End snow_cycle.

(** ** The collection service: dispatch, lifecycle, listeners *)

Module services_lifecycle.
Import services.

Section Dispatch.

Variable base : Base.
Context {Job : Type}.
Variable CreateJob : string -> gmap string string -> option Job.

Implicit Types (cs : @CollectService Job) (raws : list rawTask).

(** What [handleEach] keeps of the service, whatever the batch. *)
Lemma handleEach_keeps metaInfo raws cs :
  let cs' := handleEach base CreateJob metaInfo raws cs in
  config cs' = config cs /\ host cs' = host cs /\ started cs' = started cs
  /\ GOOS cs' = GOOS cs /\ NumCPU cs' = NumCPU cs
  /\ jobs cs ⊆ jobs cs'
  /\ calls cs `prefix_of` calls cs'.
Proof.
  revert cs. induction raws as [|raw raws IH]; intros cs; cbn [handleEach].
  - repeat split; try reflexivity.
  - destruct raw as [taskConfig|raw]; [|apply IH].
    destruct (taskConfig !! App base); [|apply IH].
    destruct (negb _); [repeat split; reflexivity|].
    destruct (jobs cs !! get taskConfig (TaskConfigKey base)) as [cached|] eqn:Hc.
    + specialize (IH (with_jobs cs (jobs cs) [GoCallback cached])).
      cbn in IH. destruct IH as (?&?&?&?&?&?&Hp). repeat split; try assumption.
      etransitivity; [|exact Hp]. apply prefix_app_r. reflexivity.
    + destruct (CreateJob _ _) as [job|]; [|repeat split; reflexivity].
      specialize (IH (with_jobs cs (<[get taskConfig (TaskConfigKey base) := job]> (jobs cs))
                        [JobStart job; GoCallback job])).
      cbn in IH. destruct IH as (?&?&?&?&?&Hj&Hp). repeat split; try assumption.
      * etransitivity; [|exact Hj]. apply insert_subseteq. exact Hc.
      * etransitivity; [|exact Hp]. apply prefix_app_r. reflexivity.
Qed.

(** X15. handleTasks only adds: whatever the batch, the host, the started
    flag and the configuration stay, every job cached before is cached
    under the same key afterwards, and the calls made before are a prefix of
    the calls made afterwards. *)
Theorem handleTasks_keeps_cache (data : Data) cs :
  let cs' := handleTasks base CreateJob data cs in
  host cs' = host cs /\ started cs' = started cs /\ config cs' = config cs
  /\ (forall key job, jobs cs !! key = Some job -> jobs cs' !! key = Some job)
  /\ calls cs `prefix_of` calls cs'.
Proof.
  unfold handleTasks. destruct (MetaInfo data !! Host base).
  - pose proof (handleEach_keeps (MetaInfo data) (RawData data) cs) as (?&?&?&_&_&Hj&Hp).
    repeat split; try assumption.
    intros key job Hk. eapply lookup_weaken; eassumption.
  - repeat split; auto.
Qed.

(** X16. A batch without a Host entry in its meta information, or with a
    Host other than this worker's, changes nothing: no job is created,
    started or called back. *)
Theorem handleTasks_other_host (data : Data) cs :
  MetaInfo data !! Host base = None \/ get (MetaInfo data) (Host base) <> host cs ->
  handleTasks base CreateJob data cs = cs.
Proof.
  intros H. unfold handleTasks.
  destruct (MetaInfo data !! Host base) as [h|] eqn:Hh; [|reflexivity].
  destruct H as [H|H]; [discriminate|].
  induction (RawData data) as [|raw raws IH]; [reflexivity|].
  cbn [handleEach]. destruct raw as [taskConfig|raw]; [|exact IH].
  destruct (taskConfig !! App base); [|exact IH].
  destruct (String.eqb_spec (get (MetaInfo data) (Host base)) (host cs));
    [contradiction|reflexivity].
Qed.

(** X17. Entries that do not decode and entries without an application
    type are skipped without any effect: handling a batch is handling the
    batch with those entries removed. *)
Theorem handleTasks_skips_malformed (data : Data) cs :
  handleTasks base CreateJob data cs =
    handleTasks base CreateJob
      (mkData (MetaInfo data) (List.filter (usable base) (RawData data))) cs.
Proof.
  unfold handleTasks. cbn [MetaInfo RawData].
  destruct (MetaInfo data !! Host base); [|reflexivity].
  generalize (MetaInfo data) as metaInfo. intros metaInfo.
  revert cs. induction (RawData data) as [|raw raws IH]; intros cs; [reflexivity|].
  cbn [List.filter]. destruct raw as [taskConfig|raw]; cbn [usable handleEach]; [|apply IH].
  destruct (taskConfig !! App base) as [app|] eqn:Happ.
  - rewrite bool_decide_eq_true_2 by eauto. cbn [handleEach]. rewrite Happ.
    destruct (negb _); [reflexivity|].
    destruct (jobs cs !! _); [apply IH|].
    destruct (CreateJob _ _); [apply IH|reflexivity].
  - rewrite bool_decide_eq_false_2 by (intros [? ?]; discriminate). apply IH.
Qed.

Lemma handleEach_cached metaInfo taskConfig cached (n : nat) cs :
  is_Some (taskConfig !! App base) ->
  get metaInfo (Host base) = host cs ->
  jobs cs !! get taskConfig (TaskConfigKey base) = Some cached ->
  handleEach base CreateJob metaInfo (replicate n (Task taskConfig)) cs =
    with_jobs cs (jobs cs) (replicate n (GoCallback cached)).
Proof.
  intros [app Happ] Hhost. revert cs Hhost.
  induction n as [|n IH]; intros cs Hhost Hc; cbn [replicate handleEach].
  - destruct cs; unfold with_jobs; cbn. rewrite app_nil_r. reflexivity.
  - rewrite Happ, Hhost, String.eqb_refl, Hc. cbn [negb].
    rewrite IH by assumption. destruct cs; unfold with_jobs; cbn.
    rewrite <- app_assoc. reflexivity.
Qed.

(** X18. A task repeated in a batch reuses its job: for a task of this
    worker that is not cached and whose job the factory creates, handling
    n+1 copies creates and starts the job once, caches it under the task's
    key, and calls it back n+1 times. *)
Theorem repeated_task_reuses_job (metaInfo taskConfig : gmap string string)
    (job : Job) (n : nat) cs :
  let key := get taskConfig (TaskConfigKey base) in
  is_Some (metaInfo !! Host base) ->
  get metaInfo (Host base) = host cs ->
  is_Some (taskConfig !! App base) ->
  jobs cs !! key = None ->
  CreateJob (get taskConfig (App base)) taskConfig = Some job ->
  let cs' :=
    handleTasks base CreateJob (mkData metaInfo (replicate (S n) (Task taskConfig))) cs in
  jobs cs' = <[key := job]> (jobs cs)
  /\ calls cs' = calls cs ++ JobStart job :: replicate (S n) (GoCallback job).
Proof.
  intros key [h Hh] Hhost Happ Hnew Hjob cs'. subst cs'.
  unfold handleTasks. cbn [MetaInfo RawData]. rewrite Hh.
  cbn [replicate handleEach]. destruct Happ as [app Happ].
  rewrite Happ, Hhost, String.eqb_refl. cbn [negb]. fold key. rewrite Hnew, Hjob.
  rewrite (handleEach_cached metaInfo taskConfig job n); cbn; eauto.
  - split; [reflexivity|]. rewrite <- app_assoc. reflexivity.
  - fold key. apply lookup_insert_eq.
Qed.

Lemma handleEach_calls metaInfo raws cs :
  let cs' := handleEach base CreateJob metaInfo raws cs in
  exists evs,
    calls cs' = calls cs ++ evs
    /\ Forall (fun ev => exists key, jobs cs' !! key = Some (jobOf ev)) evs
    /\ size (jobs cs') = (size (jobs cs) + length (List.filter isStart evs))%nat.
Proof.
  revert cs. induction raws as [|raw raws IH]; intros cs; cbn [handleEach].
  - exists []. rewrite app_nil_r. cbn. auto.
  - destruct raw as [taskConfig|raw]; [|apply IH].
    destruct (taskConfig !! App base); [|apply IH].
    destruct (negb _); [exists []; rewrite app_nil_r; cbn; auto|].
    destruct (jobs cs !! get taskConfig (TaskConfigKey base)) as [cached|] eqn:Hc.
    + set (cs1 := with_jobs cs (jobs cs) [GoCallback cached]).
      destruct (IH cs1) as (evs & Hcalls & Hin & Hsize).
      pose proof (handleEach_keeps metaInfo raws cs1) as (_&_&_&_&_&Hsub&_).
      exists (GoCallback cached :: evs). cbn in *.
      rewrite Hcalls, <- app_assoc. split; [reflexivity|]. split; [|exact Hsize].
      constructor; [|exact Hin].
      exists (get taskConfig (TaskConfigKey base)). eapply lookup_weaken; eassumption.
    + destruct (CreateJob _ _) as [job|]; [|exists []; rewrite app_nil_r; cbn; auto].
      set (cs1 := with_jobs cs (<[get taskConfig (TaskConfigKey base) := job]> (jobs cs))
                    [JobStart job; GoCallback job]).
      destruct (IH cs1) as (evs & Hcalls & Hin & Hsize).
      pose proof (handleEach_keeps metaInfo raws cs1) as (_&_&_&_&_&Hsub&_).
      assert (jobs (handleEach base CreateJob metaInfo raws cs1)
                !! get taskConfig (TaskConfigKey base) = Some job) as Hjob.
      { eapply lookup_weaken; [|exact Hsub]. cbn. apply lookup_insert_eq. }
      exists (JobStart job :: GoCallback job :: evs). cbn in *.
      rewrite Hcalls, <- app_assoc. split; [reflexivity|]. split.
      * repeat constructor; eauto.
      * rewrite Hsize, map_size_insert_None by exact Hc. lia.
Qed.

(** X19. Every call handleTasks makes is made on a job that is cached when
    it returns, and the cache grows by exactly the number of jobs
    started. *)
Theorem handleTasks_calls_cached_jobs (data : Data) cs :
  let cs' := handleTasks base CreateJob data cs in
  exists evs,
    calls cs' = calls cs ++ evs
    /\ Forall (fun ev => exists key, jobs cs' !! key = Some (jobOf ev)) evs
    /\ size (jobs cs') = (size (jobs cs) + length (List.filter isStart evs))%nat.
Proof.
  unfold handleTasks. destruct (MetaInfo data !! Host base).
  - apply handleEach_calls.
  - exists []. rewrite app_nil_r. cbn. auto.
Qed.

End Dispatch.

Section Heartbeat.

Variable base : Base.
Context {Job : Type}.

Implicit Types (cs : @CollectService Job).

(** X20. The heartbeat record of an application, when the five key
    constants of package base are distinct: it has exactly five entries, the
    host name, the platform, the application, the CPU count and the
    timestamp printed in decimal. *)
Theorem heartbeat_record_fields cs (timestamp : Z) (app : string) :
  NoDup [Host base; Platform base; App base; CpuCount base; Timestamp base] ->
  let record := statsFor base cs timestamp app in
  record !! Host base = Some (host cs)
  /\ record !! Platform base = Some (GOOS cs)
  /\ record !! App base = Some app
  /\ record !! CpuCount base = Some (NumCPU cs)
  /\ record !! Timestamp base = Some (strconv.Itoa timestamp)
  /\ size record = 5%nat.
Proof.
  intros Hnd record. subst record. unfold statsFor.
  apply NoDup_cons in Hnd as [H1 Hnd]. apply NoDup_cons in Hnd as [H2 Hnd].
  apply NoDup_cons in Hnd as [H3 Hnd]. apply NoDup_cons in Hnd as [H4 _].
  assert (Host base <> Platform base /\ Host base <> App base
          /\ Host base <> CpuCount base /\ Host base <> Timestamp base
          /\ Platform base <> App base /\ Platform base <> CpuCount base
          /\ Platform base <> Timestamp base /\ App base <> CpuCount base
          /\ App base <> Timestamp base /\ CpuCount base <> Timestamp base)
    as (?&?&?&?&?&?&?&?&?&?) by (repeat split; intros E; set_solver).
  repeat split.
  - rewrite !lookup_insert_ne by congruence. apply lookup_insert_eq.
  - rewrite !lookup_insert_ne by congruence. apply lookup_insert_eq.
  - apply lookup_insert_eq.
  - rewrite !lookup_insert_ne by congruence. apply lookup_insert_eq.
  - rewrite lookup_insert_ne by congruence. apply lookup_insert_eq.
  - rewrite (insert_insert_ne _ (App base) (Timestamp base)) by congruence.
    rewrite (insert_insert_ne _ (App base) (Timestamp base)) by congruence.
    rewrite insert_insert_eq.
    rewrite (insert_insert_ne _ (App base) (CpuCount base)) by congruence.
    rewrite insert_insert_eq.
    rewrite !map_size_insert_None; [rewrite map_size_empty; reflexivity|..];
      rewrite ?lookup_insert_ne by congruence; apply lookup_empty.
Qed.

End Heartbeat.

Section Service.

Context {Job : Type}.

Implicit Types (cs : @CollectService Job).

Lemma Stop_twice cs : fst (Stop (snd (Stop cs))) = [].
Proof.
  unfold Stop. destruct (Z.eqb_spec (started cs) 1) as [E|E]; cbn.
  - reflexivity.
  - destruct (Z.eqb_spec (started cs) 1); [contradiction|reflexivity].
Qed.

(** X21. Stop on a started service closes the factory's clients, the
    broker client and the coordination client, in this order, and then
    stops every cached job exactly once (as many stops as cached keys, each
    cached job among them, each stop on a cached job); it clears the started
    flag, keeps the cache, and a second Stop does nothing. *)
Theorem Stop_stops_every_job cs :
  started cs = 1 ->
  (exists stops,
     fst (Stop cs) = [FactoryCloseClients; ClientClose; ZkClientClose] ++ (JobStop <$> stops)
     /\ length stops = size (jobs cs)
     /\ (forall key job, jobs cs !! key = Some job -> job ∈ stops)
     /\ (forall job, job ∈ stops -> exists key, jobs cs !! key = Some job))
  /\ started (snd (Stop cs)) = 0
  /\ jobs (snd (Stop cs)) = jobs cs
  /\ fst (Stop (snd (Stop cs))) = [].
Proof.
  intros Hs. split; [|split; [|split]].
  - exists ((map_to_list (jobs cs)).*2). unfold Stop. rewrite Hs. cbn.
    split; [reflexivity|]. split; [|split].
    + rewrite length_fmap. apply length_map_to_list.
    + intros key job H. apply list_elem_of_fmap. exists (key, job).
      split; [reflexivity|]. apply elem_of_map_to_list. exact H.
    + intros job H. apply list_elem_of_fmap in H as ([key job'] & -> & H).
      exists key. apply elem_of_map_to_list in H. exact H.
  - unfold Stop. rewrite Hs. reflexivity.
  - unfold Stop. rewrite Hs. reflexivity.
  - apply Stop_twice.
Qed.

(** X22. NewCollectService gives no service exactly when the broker client,
    the coordination client or the host name is missing.  A service it gives
    is not started: Stop on it does nothing; Start launches the task monitor
    on the tasks topic and the heartbeat reporter, a second Start launches
    nothing, and Stop after Start closes the three clients, stops no job and
    gives the service back as it was made. *)
Theorem fresh_service_lifecycle (cfg : gmap string string) (client zkClient : bool)
    (hostname : option string) (goos numCPU tasksTopic : string) :
  (NewCollectService (Job := Job) cfg client zkClient hostname goos numCPU = None <->
     client = false \/ zkClient = false \/ hostname = None)
  /\ (forall cs, NewCollectService cfg client zkClient hostname goos numCPU = Some cs ->
        Stop cs = ([], cs)
        /\ fst (Start tasksTopic cs) = [GoMonitorTasks tasksTopic; GoHeartbeats]
        /\ fst (Start tasksTopic (snd (Start tasksTopic cs))) = []
        /\ Stop (snd (Start tasksTopic cs)) =
             ([FactoryCloseClients; ClientClose; ZkClientClose], cs)).
Proof.
  split.
  - unfold NewCollectService.
    destruct client, zkClient, hostname; cbn; split; intros H; auto; try discriminate;
      destruct H as [H|[H|H]]; discriminate.
  - intros cs H. unfold NewCollectService in H.
    destruct client, zkClient, hostname; cbn in H; try discriminate.
    injection H as <-. unfold Stop, Start. cbn.
    rewrite map_to_list_empty. repeat split; reflexivity.
Qed.

Lemma spawnListeners_all readerCreated (partitions : list Z) :
  Forall (fun partition => readerCreated partition = true) partitions ->
  spawnListeners readerCreated partitions = (partitions, Returned).
Proof.
  induction 1 as [|partition rest Hp _ IH]; [reflexivity|].
  cbn [spawnListeners]. rewrite Hp, IH. reflexivity.
Qed.

Lemma spawnListeners_stop readerCreated (before after : list Z) (failing : Z) :
  Forall (fun partition => readerCreated partition = true) before ->
  readerCreated failing = false ->
  spawnListeners readerCreated (before ++ failing :: after) =
    (before, Panicked "Failed to create kafka reader").
Proof.
  intros Hb Hf. induction Hb as [|partition rest Hp _ IH]; cbn [app spawnListeners].
  - rewrite Hf. reflexivity.
  - rewrite Hp, IH. reflexivity.
Qed.

(** X23. monitorTasks starts one listener per partition of the topic, in
    order: all of them when every reader can be created, those before the
    first partition whose reader cannot be created otherwise, and then it
    panics; none when the topic has no partitions; and it panics before
    starting any when the partitions cannot be listed. *)
Theorem one_listener_per_partition (topic : string)
    (topicPartitions : gmap string (list Z)) (readerCreated : Z -> bool)
    (before after : list Z) (failing : Z) :
  Forall (fun partition => readerCreated partition = true) before ->
  readerCreated failing = false ->
  (topicPartitions !! topic = Some before ->
     monitorTasks topic (Some topicPartitions) readerCreated = (before, Returned))
  /\ (topicPartitions !! topic = Some (before ++ failing :: after) ->
       monitorTasks topic (Some topicPartitions) readerCreated =
         (before, Panicked "Failed to create kafka reader"))
  /\ (topicPartitions !! topic = None ->
       monitorTasks topic (Some topicPartitions) readerCreated = ([], Returned))
  /\ monitorTasks topic None readerCreated =
       ([], Panicked ("Failed to get partitions for topic=" +:+ topic)).
Proof.
  intros Hb Hf. unfold monitorTasks. repeat split.
  - intros ->. apply spawnListeners_all. exact Hb.
  - intros ->. apply spawnListeners_stop; assumption.
  - intros ->. reflexivity.
Qed.

End Service.

Section Listening.

Variable base : Base.
Context {Job : Type}.
Variable CreateJob : string -> gmap string string -> option Job.

Implicit Types (cs : @CollectService Job).

Lemma listen_keeps (schedule : list delivery) cs :
  let cs' := fst (listen base CreateJob schedule cs) in
  host cs' = host cs /\ started cs' = started cs
  /\ (forall key job, jobs cs !! key = Some job -> jobs cs' !! key = Some job)
  /\ calls cs `prefix_of` calls cs'.
Proof.
  revert cs. induction schedule as [|d rest IH]; intros cs; cbn [listen].
  - cbn. auto.
  - destruct (startedAtHead d =? 0); [cbn; auto|].
    specialize (IH (handleTasks base CreateJob (delivered d) cs)).
    cbn in IH. destruct IH as (Hh & Hs & Hj & Hc).
    pose proof (handleEach_keeps base CreateJob (MetaInfo (delivered d))
                  (RawData (delivered d)) cs) as (_ & Hh' & Hs' & _ & _ & Hj' & Hc').
    unfold handleTasks in *. destruct (MetaInfo (delivered d) !! Host base).
    + repeat split; try congruence.
      * intros key job H. apply Hj. eapply lookup_weaken; eassumption.
      * etransitivity; eassumption.
    + repeat split; assumption.
Qed.

(** X24. A task listener handles the batches it receives, in order, for as
    long as it sees the started flag set at the head of its loop, and leaves
    the loop the first time it sees the flag cleared, without handling that
    batch or any later one; across all batches the host stays, cached jobs
    stay cached and the calls made before remain a prefix. *)
Theorem listener_stops_at_flag (running : list delivery) (stop : delivery)
    (rest : list delivery) cs :
  Forall (fun d => startedAtHead d <> 0) running ->
  startedAtHead stop = 0 ->
  let handled :=
    foldl (fun cs d => handleTasks base CreateJob (delivered d) cs) cs running in
  listen base CreateJob (running ++ stop :: rest) cs = (handled, true)
  /\ listen base CreateJob running cs = (handled, false)
  /\ host handled = host cs
  /\ (forall key job, jobs cs !! key = Some job -> jobs handled !! key = Some job)
  /\ calls cs `prefix_of` calls handled.
Proof.
  intros Hrun Hstop handled. subst handled.
  assert (listen base CreateJob running cs =
            (foldl (fun cs d => handleTasks base CreateJob (delivered d) cs) cs running,
             false)) as Hl.
  { clear Hstop. revert cs. induction Hrun as [|d running Hd _ IH]; intros cs; [reflexivity|].
    cbn [listen foldl]. destruct (Z.eqb_spec (startedAtHead d) 0); [contradiction|]. apply IH. }
  split; [|split; [exact Hl|]].
  - revert cs Hl. induction Hrun as [|d running Hd _ IH]; intros cs Hl; cbn [app listen foldl].
    + rewrite Hstop. reflexivity.
    + destruct (Z.eqb_spec (startedAtHead d) 0); [contradiction|].
      apply IH. cbn [listen foldl] in Hl.
      destruct (Z.eqb_spec (startedAtHead d) 0); [contradiction|]. exact Hl.
  - pose proof (listen_keeps running cs) as (Hh & _ & Hj & Hc).
    rewrite Hl in Hh, Hj, Hc. cbn in *. auto.
Qed.

End Listening.

(** *** The properties on a concrete worker *)

Import samples.

Lemma handleTasks_keeps_cache_witness :
  let cs' := handleTasks base createJob (batch [task "snow" "t2"]) busyService in
  jobs cs' !! "t1" = Some "job-t1" /\ host cs' = "worker-1".
Proof.
  intros cs'.
  destruct (handleTasks_keeps_cache base createJob (batch [task "snow" "t2"]) busyService)
    as (Hh & _ & _ & Hj & _).
  split; [apply Hj; reflexivity|exact Hh].
Defined.

Lemma handleTasks_other_host_witness :
  handleTasks base createJob (batchFor "worker-2" [task "snow" "t2"]) busyService =
    busyService.
Proof.
  apply handleTasks_other_host. right. vm_compute. discriminate.
Defined.

Lemma repeated_task_reuses_job_witness :
  let cs' :=
    handleTasks base createJob
      (mkData (<["Host" := "worker-1"]> ∅) (replicate 2 (Task (taskConfigOf "snow" "t2"))))
      busyService in
  jobs cs' = <["t2" := "job-t2"]> (jobs busyService)
  /\ calls cs' = [JobStart "job-t2"; GoCallback "job-t2"; GoCallback "job-t2"].
Proof.
  intros cs'.
  destruct (repeated_task_reuses_job base createJob (<["Host" := "worker-1"]> ∅)
              (taskConfigOf "snow" "t2") "job-t2" 1 busyService) as [Hj Hc].
  - eexists. reflexivity.
  - reflexivity.
  - eexists. reflexivity.
  - reflexivity.
  - reflexivity.
  - split; [exact Hj|exact Hc].
Defined.

Lemma heartbeat_record_fields_witness :
  let record := statsFor base busyService 1446249600000000000 "snow" in
  record !! "Host" = Some "worker-1"
  /\ record !! "App" = Some "snow"
  /\ record !! "Timestamp" = Some "1446249600000000000"
  /\ size record = 5%nat.
Proof.
  intros record.
  destruct (heartbeat_record_fields base busyService 1446249600000000000 "snow")
    as (H1 & _ & H3 & _ & H5 & H6).
  - apply (bool_decide_unpack _). vm_compute. exact I.
  - split; [exact H1|]. split; [exact H3|]. split; [exact H5|exact H6].
Defined.

Lemma Stop_stops_every_job_witness :
  (exists stops,
     fst (Stop busyService) =
       [FactoryCloseClients; ClientClose; ZkClientClose] ++ (JobStop <$> stops)
     /\ "job-t1" ∈ stops)
  /\ started (snd (Stop busyService)) = 0.
Proof.
  destruct (Stop_stops_every_job busyService eq_refl)
    as ((stops & Hev & _ & Hall & _) & Hs & _).
  split; [|exact Hs].
  exists stops. split; [exact Hev|]. apply (Hall "t1"). reflexivity.
Defined.

Lemma fresh_service_lifecycle_witness :
  let cs : @CollectService string :=
    mkService (<["Heartbeat" := "kafka"]> ∅) ∅ "worker-1" 0 "linux" "8" [] in
  fst (Start "tasks" cs) = [GoMonitorTasks "tasks"; GoHeartbeats]
  /\ Stop (snd (Start "tasks" cs)) = ([FactoryCloseClients; ClientClose; ZkClientClose], cs).
Proof.
  intros cs.
  destruct (fresh_service_lifecycle (Job := string) (<["Heartbeat" := "kafka"]> ∅)
              true true (Some "worker-1") "linux" "8" "tasks") as [_ H].
  destruct (H cs eq_refl) as (_ & H1 & _ & H2).
  split; [exact H1|exact H2].
Defined.

Lemma one_listener_per_partition_witness :
  monitorTasks "tasks" (Some (<["tasks" := [0; 1; 2; 3]]> ∅)) (fun partition => partition <? 2) =
    ([0; 1], Panicked "Failed to create kafka reader").
Proof.
  destruct (one_listener_per_partition "tasks" (<["tasks" := [0; 1; 2; 3]]> ∅)
              (fun partition => partition <? 2) [0; 1] [3] 2) as (_ & H & _).
  - repeat constructor.
  - reflexivity.
  - apply H. reflexivity.
Defined.

Lemma listener_stops_at_flag_witness :
  listen base createJob
    [mkDelivery 1 (batch [task "snow" "t2"]); mkDelivery 0 (batch [task "snow" "t3"])]
    busyService =
  (handleTasks base createJob (batch [task "snow" "t2"]) busyService, true).
Proof.
  destruct (listener_stops_at_flag base createJob
              [mkDelivery 1 (batch [task "snow" "t2"])]
              (mkDelivery 0 (batch [task "snow" "t3"])) [] busyService) as [H _].
  - repeat constructor. cbn. lia.
  - reflexivity.
  - exact H.
Defined.

End services_lifecycle.
